(** * AI-Virtual-Mouse: gesture interpretation core

    A shallow embedding of [src/config.py], [src/scroll_handler.py],
    [src/hand_detector.py] (finger states and pinch distance) and
    [src/gesture_handler.py], followed by the properties of the
    specification that concern them.

    Numbers.  Pixel coordinates are Python ints and are modelled in [Z].
    Python floats (speeds, screen positions, clock readings) are modelled
    as exact rationals [Q]: every float operation is read as the exact
    operation.  The result of [math.hypot] on integer arguments is kept
    exact as a square root of an integer ([Length]) and is given its value
    in the reals.  The properties below are chosen so as not to hinge on
    the rounding of a float operation: they are orders, bounds with room,
    and structure, not identities between computed values.

    Effects.  The calls on the mouse controller made while a frame is
    processed are collected, in order, in a list of [command]s.  The two
    places where the code reads [time.time()] receive the value read as an
    input of the frame.  Drawing on the image has no influence on the state
    or on the commands and is left out. *)

From Stdlib Require Import Reals Lra.
From Stdlib Require Import ZArith QArith Qabs List Bool Lia Lqa.
Import ListNotations.

Open Scope Z_scope.

(** ** Numeric helpers *)

(** Strict comparison of rationals, as a boolean. *)
Definition Qltb (a b : Q) : bool := negb (Qle_bool b a).

(** Python's [int(x)] on a float: truncation toward zero. *)
Definition py_int (x : Q) : Z := Z.quot (Qnum x) (Zpos (Qden x)).

(** Python's [sum(xs)]: left-to-right addition starting from [0]. *)
Definition py_sum (xs : list Q) : Q := fold_left Qplus xs 0%Q.

(** ** src/config.py *)

Module Config.
Definition CAMERA_WIDTH : Z := 640.
Definition CAMERA_HEIGHT : Z := 480.
Definition FRAME_REDUCTION : Z := 100.
Definition SMOOTHENING : Z := 7.
Definition BASE_SCROLL_SENSITIVITY : Q := 5.
Definition MAX_SCROLL_SENSITIVITY : Q := 20.
Definition SCROLL_DELAY : Q := 2 # 100.
Definition SCROLL_HISTORY_LENGTH : nat := 3.
Definition DRAG_CLICK_THRESHOLD : Q := 3 # 10.
Definition PINCH_DISTANCE_THRESHOLD : Z := 40.
Definition SCROLL_NEUTRAL_ZONE_HEIGHT_RATIO : Q := 1 # 5.
Definition SCROLL_BOOST_MULTIPLIER : Z := 15.
End Config.
Import Config.

(** ** src/scroll_handler.py *)

Module ScrollHandler.

(** The attributes set by [__init__]. *)
Record t : Type := mk {
  scroll_mode : bool;
  scroll_history : list Q;
  last_scroll_time : Q;
  history_length : nat
}.

Definition init : t :=
  {| scroll_mode := false;
     scroll_history := [];
     last_scroll_time := 0;
     history_length := SCROLL_HISTORY_LENGTH |}.

Definition set_scroll_mode (b : bool) (s : t) : t :=
  {| scroll_mode := b;
     scroll_history := scroll_history s;
     last_scroll_time := last_scroll_time s;
     history_length := history_length s |}.

Definition set_scroll_history (h : list Q) (s : t) : t :=
  {| scroll_mode := scroll_mode s;
     scroll_history := h;
     last_scroll_time := last_scroll_time s;
     history_length := history_length s |}.

Definition set_last_scroll_time (now : Q) (s : t) : t :=
  {| scroll_mode := scroll_mode s;
     scroll_history := scroll_history s;
     last_scroll_time := now;
     history_length := history_length s |}.

(** The arithmetic mean computed on the last line of [smooth_scroll]. *)
Definition mean (h : list Q) : Q :=
  (py_sum h / inject_Z (Z.of_nat (length h)))%Q.

(** [smooth_scroll]: append, drop the oldest sample when the history is
    longer than [history_length], return the mean.  [None] stands for the
    [ZeroDivisionError] of an empty history (only possible when
    [history_length] is 0). *)
Definition smooth_scroll (s : t) (current_amount : Q) : option (t * Q) :=
  let h := scroll_history s ++ [current_amount] in
  let h := if (history_length s <? length h)%nat then tl h else h in
  match h with
  | [] => None
  | _ => Some (set_scroll_history h s, mean h)
  end.

Definition neutral_zone_height : Z :=
  py_int (inject_Z CAMERA_HEIGHT * SCROLL_NEUTRAL_ZONE_HEIGHT_RATIO).
Definition neutral_top : Z := (CAMERA_HEIGHT - neutral_zone_height) / 2.
Definition neutral_bottom : Z := (CAMERA_HEIGHT + neutral_zone_height) / 2.

(** [get_progressive_speed].  The position is any number in Python; the
    gesture handler passes the wrist's integer pixel row. *)
Definition get_progressive_speed (y_pos : Q) : Q :=
  if Qle_bool (inject_Z neutral_top) y_pos
     && Qle_bool y_pos (inject_Z neutral_bottom)
  then 0%Q
  else if Qltb y_pos (inject_Z neutral_top) then
    let dist_from_neutral :=
      ((inject_Z neutral_top - y_pos) / inject_Z neutral_top)%Q in
    let speed_factor := (dist_from_neutral ^ 2)%Q in
    (- BASE_SCROLL_SENSITIVITY
     + (MAX_SCROLL_SENSITIVITY - BASE_SCROLL_SENSITIVITY) * speed_factor)%Q
  else
    let dist_from_neutral :=
      ((y_pos - inject_Z neutral_bottom)
       / (inject_Z CAMERA_HEIGHT - inject_Z neutral_bottom))%Q in
    let speed_factor := (dist_from_neutral ^ 2)%Q in
    (BASE_SCROLL_SENSITIVITY
     + (MAX_SCROLL_SENSITIVITY - BASE_SCROLL_SENSITIVITY) * speed_factor)%Q.

Definition get_scroll_zones : Z * Z * Z :=
  (neutral_top, neutral_bottom, neutral_zone_height).

(** [should_scroll]; [current_time] is the value of [time.time()]. *)
Definition should_scroll (s : t) (current_time scroll_speed : Q) : bool :=
  Qltb SCROLL_DELAY (current_time - last_scroll_time s)
  && Qltb (1 # 2) (Qabs scroll_speed).

(** [update_scroll_time]; [now] is the value of [time.time()]. *)
Definition update_scroll_time (s : t) (now : Q) : t :=
  set_last_scroll_time now s.

Definition activate_scroll_mode (s : t) : t :=
  set_scroll_history [] (set_scroll_mode true s).

Definition deactivate_scroll_mode (s : t) : t :=
  set_scroll_mode false s.

Definition is_scroll_mode_active (s : t) : bool := scroll_mode s.

End ScrollHandler.

(** ** Lengths returned by [math.hypot]

    For integer arguments [math.hypot dx dy] is the square root of the
    integer [dx*dx + dy*dy].  A [Length] keeps that integer, which makes the
    comparison with an integer threshold exact and computable;
    [length_val] is the real number it stands for. *)

Inductive Length : Type := Sqrt (n : Z).

Definition hypot (dx dy : Z) : Length := Sqrt (dx * dx + dy * dy).

Definition length_val (l : Length) : R :=
  match l with Sqrt n => sqrt (IZR n) end.

(** [l < threshold] for an integer threshold. *)
Definition length_ltb (l : Length) (threshold : Z) : bool :=
  match l with Sqrt n => (0 <? threshold) && (n <? threshold * threshold) end.

(** ** numpy.interp on a two-point table

    [np.interp(x, (x0, x1), (f0, f1))] with the default [left] and [right]
    arguments.  numpy is not part of the repository; this follows its
    documentation: the piecewise linear interpolant on [[x0, x1]], [f0]
    for [x < x0] and [f1] for [x > x1]. *)
Definition np_interp (x : Q) (xp fp : Q * Q) : Q :=
  let '(x0, x1) := xp in
  let '(f0, f1) := fp in
  if Qltb x x0 then f0
  else if Qltb x1 x then f1
  else if Qeq_bool x x1 then f1
  else ((f1 - f0) / (x1 - x0) * (x - x0) + f0)%Q.

(** ** src/hand_detector.py *)

Module HandDetector.

(** One entry [[id, cx, cy]] of [lm_list]. *)
Record Landmark : Type := LM { lm_id : Z; lm_x : Z; lm_y : Z }.

(** The list of five 0/1 flags [[thumb, index, middle, ring, pinky]]. *)
Record Fingers : Type := FV {
  thumb : Z; index : Z; middle : Z; ring : Z; pinky : Z
}.

(** The detector, as far as gestures read it: the attribute [lm_list],
    absent ([None]) until [find_position] has run once. *)
Record t : Type := mk { lm_list : option (list Landmark) }.

Definition tip_ids : list nat := [4; 8; 12; 16; 20]%nat.

(** [find_position], on the landmarks of the tracked hand in pixel
    coordinates (none when no hand is seen): stores and returns them. *)
Definition find_position (lms : list Landmark) : t * list Landmark :=
  ({| lm_list := Some lms |}, lms).

(** One [try ... except (IndexError, TypeError)] block of [fingers_up]. *)
Definition flag_or_zero (test : Landmark -> Landmark -> bool)
    (a b : option Landmark) : Z :=
  match a, b with
  | Some a, Some b => if test a b then 1 else 0
  | _, _ => 0
  end.

Definition fingers_up (d : t) : Fingers :=
  match lm_list d with
  | None => FV 0 0 0 0 0
  | Some l =>
    if (length l <? 21)%nat then FV 0 0 0 0 0
    else
      let tip i := nth i tip_ids 0%nat in
      let finger i :=
        flag_or_zero (fun a b => lm_y a <? lm_y b)
          (nth_error l (tip i)) (nth_error l (tip i - 2)) in
      FV (flag_or_zero (fun a b => lm_x b <? lm_x a)
            (nth_error l (tip 0%nat)) (nth_error l (tip 0%nat - 1)))
         (finger 1%nat) (finger 2%nat) (finger 3%nat) (finger 4%nat)
  end.

(** [find_distance], without the image: the length and the list
    [[x1, y1, x2, y2, cx, cy]].  [None] stands for a raised
    [IndexError]. *)
Definition find_distance (d : t) (p1 p2 : nat)
  : option (Length * list Z) :=
  match lm_list d with
  | None => Some (Sqrt 0, [0; 0; 0; 0; 0; 0])
  | Some l =>
    if (length l <? Nat.max p1 p2 + 1)%nat
    then Some (Sqrt 0, [0; 0; 0; 0; 0; 0])
    else
      match nth_error l p1, nth_error l p2 with
      | Some a, Some b =>
        let x1 := lm_x a in let y1 := lm_y a in
        let x2 := lm_x b in let y2 := lm_y b in
        let cx := (x1 + x2) / 2 in
        let cy := (y1 + y2) / 2 in
        Some (hypot (x2 - x1) (y2 - y1), [x1; y1; x2; y2; cx; cy])
      | _, _ => None
      end
  end.

End HandDetector.

(** ** src/mouse_controller.py, as seen from the gesture handler *)

Inductive command : Type :=
| Move (x y : Q)
| Click
| RightClick
| ToggleDrag (state : bool)
| Scroll (amount : Z).

(** The readings of [time.time()] while one frame is processed.  At most
    two happen: the first in [_handle_movement] or in [should_scroll], the
    second, only after a scroll was sent, in [update_scroll_time]. *)
Record Clock : Type := CLK { time_first : Q; time_second : Q }.

(** ** src/gesture_handler.py *)

Module GestureHandler.
Import HandDetector.

(** The attributes set by [__init__], except the two collaborators: the
    detector is an argument of [process_frame] below and the mouse
    controller is the list of commands it returns. *)
Record t : Type := mk {
  scroll_handler : ScrollHandler.t;
  ploc_x : Q; ploc_y : Q;
  cloc_x : Q; cloc_y : Q;
  drag_mode : bool;
  drag_active : bool;
  drag_start_time : Q;
  w_screen : Q; h_screen : Q
}.

(** [__init__], for a screen of the given size. *)
Definition init (w h : Q) : t :=
  {| scroll_handler := ScrollHandler.init;
     ploc_x := 0; ploc_y := 0; cloc_x := 0; cloc_y := 0;
     drag_mode := false; drag_active := false; drag_start_time := 0;
     w_screen := w; h_screen := h |}.

Definition set_scroll_handler (s : ScrollHandler.t) (g : t) : t :=
  mk s (ploc_x g) (ploc_y g) (cloc_x g) (cloc_y g)
     (drag_mode g) (drag_active g) (drag_start_time g)
     (w_screen g) (h_screen g).
Definition set_ploc (x y : Q) (g : t) : t :=
  mk (scroll_handler g) x y (cloc_x g) (cloc_y g)
     (drag_mode g) (drag_active g) (drag_start_time g)
     (w_screen g) (h_screen g).
Definition set_cloc (x y : Q) (g : t) : t :=
  mk (scroll_handler g) (ploc_x g) (ploc_y g) x y
     (drag_mode g) (drag_active g) (drag_start_time g)
     (w_screen g) (h_screen g).
Definition set_drag_mode (b : bool) (g : t) : t :=
  mk (scroll_handler g) (ploc_x g) (ploc_y g) (cloc_x g) (cloc_y g)
     b (drag_active g) (drag_start_time g) (w_screen g) (h_screen g).
Definition set_drag_active (b : bool) (g : t) : t :=
  mk (scroll_handler g) (ploc_x g) (ploc_y g) (cloc_x g) (cloc_y g)
     (drag_mode g) b (drag_start_time g) (w_screen g) (h_screen g).
Definition set_drag_start_time (now : Q) (g : t) : t :=
  mk (scroll_handler g) (ploc_x g) (ploc_y g) (cloc_x g) (cloc_y g)
     (drag_mode g) (drag_active g) now (w_screen g) (h_screen g).

(** *** Methods as computations

    A method reads and updates the handler, calls the mouse controller,
    and may raise: [None] is a raised exception, otherwise the result
    comes with the new handler and the commands sent, oldest first. *)
Definition M (A : Type) : Type := t -> option (A * t * list command).

Definition ret {A} (a : A) : M A := fun g => Some (a, g, []).

Definition bind {A B} (m : M A) (k : A -> M B) : M B :=
  fun g =>
    match m g with
    | None => None
    | Some (a, g1, c1) =>
      match k a g1 with
      | None => None
      | Some (b, g2, c2) => Some (b, g2, c1 ++ c2)
      end
    end.

Definition get : M t := fun g => Some (g, g, []).
Definition modify (f : t -> t) : M unit := fun g => Some (tt, f g, []).
Definition emit (c : command) : M unit := fun g => Some (tt, g, [c]).
Definition lift {A} (o : option A) : M A :=
  fun g => match o with Some a => Some (a, g, []) | None => None end.

Notation "x <- m ;; k" := (bind m (fun x => k))
  (at level 61, m at next level, right associativity).
Notation "m ;; k" := (bind m (fun _ => k))
  (at level 61, right associativity).

(** The three statements that end a drag, written out five times in the
    source. *)
Definition release_drag : M unit :=
  g <- get ;;
  if drag_active g then
    emit (ToggleDrag false) ;;
    modify (set_drag_active false) ;;
    modify (set_drag_mode false)
  else ret tt.

(** The first two assignments of [_handle_movement]: the index
    fingertip mapped to screen coordinates. *)
Definition x_mapped (g : t) (x1 : Z) : Q :=
  np_interp (inject_Z x1)
    (inject_Z FRAME_REDUCTION, inject_Z (CAMERA_WIDTH - FRAME_REDUCTION))
    (0%Q, w_screen g).
Definition y_mapped (g : t) (y1 : Z) : Q :=
  np_interp (inject_Z y1)
    (inject_Z FRAME_REDUCTION, inject_Z (CAMERA_HEIGHT - FRAME_REDUCTION))
    (0%Q, h_screen g).

Definition _handle_movement (d : HandDetector.t) (clk : Clock)
    (x1 y1 : Z) (fingers : Fingers) : M unit :=
  g <- get ;;
  let cx :=
    (ploc_x g + (x_mapped g x1 - ploc_x g) / inject_Z SMOOTHENING)%Q in
  let cy :=
    (ploc_y g + (y_mapped g y1 - ploc_y g) / inject_Z SMOOTHENING)%Q in
  modify (set_cloc cx cy) ;;
  emit (Move cx cy) ;;
  modify (set_ploc cx cy) ;;
  if thumb fingers =? 1 then
    r <- lift (find_distance d 4 8) ;;
    if length_ltb (fst r) PINCH_DISTANCE_THRESHOLD then
      g <- get ;;
      if negb (drag_mode g) then
        modify (set_drag_start_time (time_first clk)) ;;
        modify (set_drag_mode true)
      else if Qltb DRAG_CLICK_THRESHOLD
                (time_first clk - drag_start_time g)
              && negb (drag_active g) then
        emit (ToggleDrag true) ;;
        modify (set_drag_active true)
      else ret tt
    else release_drag
  else release_drag.

(** [time.sleep(0.3)] after a click sends nothing and changes no
    attribute; it shows in the clock readings of the frames that follow,
    which are inputs here. *)
Definition _handle_left_click (d : HandDetector.t) (fingers : Fingers)
  : M unit :=
  if (index fingers =? 1) && (middle fingers =? 1) then
    r <- lift (find_distance d 8 12) ;;
    if length_ltb (fst r) PINCH_DISTANCE_THRESHOLD
    then emit Click else ret tt
  else ret tt.

Definition _handle_right_click (d : HandDetector.t) (fingers : Fingers)
  : M unit :=
  if (thumb fingers =? 1) && (index fingers =? 1) && (middle fingers =? 0)
  then
    r <- lift (find_distance d 4 8) ;;
    if length_ltb (fst r) PINCH_DISTANCE_THRESHOLD
    then emit RightClick else ret tt
  else ret tt.

Definition _handle_scroll (clk : Clock) (wrist_y : Z) : M unit :=
  g <- get ;;
  (if negb (ScrollHandler.is_scroll_mode_active (scroll_handler g))
   then modify (fun g =>
          set_scroll_handler
            (ScrollHandler.activate_scroll_mode (scroll_handler g)) g)
   else ret tt) ;;
  let scroll_speed := ScrollHandler.get_progressive_speed (inject_Z wrist_y) in
  g <- get ;;
  if ScrollHandler.should_scroll (scroll_handler g) (time_first clk)
       scroll_speed
  then
    r <- lift (ScrollHandler.smooth_scroll (scroll_handler g) scroll_speed) ;;
    let smoothed_scroll := snd r in
    modify (set_scroll_handler (fst r)) ;;
    emit (Scroll (py_int (smoothed_scroll * inject_Z SCROLL_BOOST_MULTIPLIER))) ;;
    modify (fun g =>
      set_scroll_handler
        (ScrollHandler.update_scroll_time (scroll_handler g)
           (time_second clk)) g)
  else ret tt.

(** [lm_list[i]]: raises [IndexError] out of range. *)
Definition item (l : list Landmark) (i : nat) : M Landmark :=
  lift (nth_error l i).

Definition process_frame (d : HandDetector.t) (clk : Clock)
    (lm_list : list Landmark) (fingers : Fingers) : M unit :=
  match lm_list with
  | [] => release_drag
  | _ :: _ =>
    i8 <- item lm_list 8 ;;
    _ <- item lm_list 12 ;;
    _ <- item lm_list 4 ;;
    _ <- item lm_list 20 ;;
    i0 <- item lm_list 0 ;;
    let x1 := lm_x i8 in
    let y1 := lm_y i8 in
    let wrist_y := lm_y i0 in
    if (pinky fingers =? 1) && (ring fingers =? 1)
       && (thumb fingers + index fingers + middle fingers =? 0)
    then
      _handle_scroll clk wrist_y ;;
      release_drag
    else
      modify (fun g =>
        set_scroll_handler
          (ScrollHandler.deactivate_scroll_mode (scroll_handler g)) g) ;;
      (if index fingers =? 1
       then _handle_movement d clk x1 y1 fingers
       else release_drag) ;;
      g <- get ;;
      if negb (drag_active g) then
        _handle_left_click d fingers ;;
        _handle_right_click d fingers
      else ret tt
  end.

(** [cleanup]: the button is released, the attributes stay. *)
Definition cleanup : M unit :=
  g <- get ;;
  if drag_active g then emit (ToggleDrag false) else ret tt.

End GestureHandler.

(** ** main.py: the loop body *)

Module Main.
Import HandDetector.

(** What one camera frame brings: the landmarks of the tracked hand
    (empty when there is none) and the clock readings. *)
Record Frame : Type := FR { landmarks : list Landmark; clock : Clock }.

(** One iteration, from [find_position] to [process_frame]: the new
    handler and the commands sent, or [None] when an exception leaves
    the loop. *)
Definition step (g : GestureHandler.t) (f : Frame)
  : option (GestureHandler.t * list command) :=
  let '(detector, lm_list) := find_position (landmarks f) in
  let fingers :=
    match lm_list with
    | [] => FV 0 0 0 0 0
    | _ => fingers_up detector
    end in
  match GestureHandler.process_frame detector (clock f) lm_list fingers g with
  | Some (_, g', cmds) => Some (g', cmds)
  | None => None
  end.

(** The loop over a finite run of frames: the commands of each frame. *)
Fixpoint run (g : GestureHandler.t) (fs : list Frame)
  : option (GestureHandler.t * list (list command)) :=
  match fs with
  | [] => Some (g, [])
  | f :: fs =>
    match step g f with
    | None => None
    | Some (g1, cmds) =>
      match run g1 fs with
      | None => None
      | Some (g2, rest) => Some (g2, cmds :: rest)
      end
    end
  end.

End Main.

(** ** The formulas of the specification, for comparison *)

(** Section 4.5, above the neutral zone:
    [speed = -(base) - (max-base) * ((neutral_top - y)/neutral_top)^2]. *)
Definition spec_speed_above (y : Q) : Q :=
  (- BASE_SCROLL_SENSITIVITY
   - (MAX_SCROLL_SENSITIVITY - BASE_SCROLL_SENSITIVITY)
     * ((inject_Z ScrollHandler.neutral_top - y)
        / inject_Z ScrollHandler.neutral_top) ^ 2)%Q.

(** Section 4.1: the linear map that sends [margin] to [0] and
    [dimension - margin] to [screen], continued outside that interval. *)
Definition spec_linear_map (margin dimension : Z) (screen : Q) (x : Z) : Q :=
  (inject_Z (x - margin) / inject_Z (dimension - 2 * margin) * screen)%Q.

(** ** Observations on command lists *)

Definition is_scroll (c : command) : bool :=
  match c with Scroll _ => true | _ => false end.

Definition is_toggle (c : command) : bool :=
  match c with ToggleDrag _ => true | _ => false end.

(** The number of scroll commands in a list. *)
Definition count_scroll (cmds : list command) : nat :=
  length (filter is_scroll cmds).

(** The begin-drag and end-drag commands alternate: starting with the
    button in state [held], every [ToggleDrag b] in the list changes the
    state.  The result is the final state of the button, or [None] when
    some command repeats the state it finds. *)
Fixpoint drag_protocol (held : bool) (cmds : list command) : option bool :=
  match cmds with
  | [] => Some held
  | ToggleDrag b :: rest =>
    if Bool.eqb b held then None else drag_protocol b rest
  | _ :: rest => drag_protocol held rest
  end.

(** The drag commands of each frame of a run. *)
Definition drag_commands (out : list (list command)) : list (list command) :=
  map (filter is_toggle) out.

(** The pinch as [_handle_movement] tests it on the landmarks of a frame:
    a hand is seen, the thumb is up and the thumb tip is within the
    threshold of the index tip. *)
Definition pinch_engaged (lms : list HandDetector.Landmark) : bool :=
  match lms with
  | [] => false
  | _ =>
    let d := HandDetector.mk (Some lms) in
    (HandDetector.thumb (HandDetector.fingers_up d) =? 1)
    && match HandDetector.find_distance d 4 8 with
       | Some (len, _) => length_ltb len PINCH_DISTANCE_THRESHOLD
       | None => false
       end
  end.

(** Following the words of the specification: for each frame of a run, how
    long the pinch has been engaged without interruption when the frame is
    processed ([None] when it is not engaged in that frame).  [since] is the
    time the pinch in progress began, if one is in progress. *)
Fixpoint hold_durations (since : option Q) (fs : list Main.Frame)
  : list (option Q) :=
  match fs with
  | [] => []
  | f :: fs =>
    let now := time_first (Main.clock f) in
    if pinch_engaged (Main.landmarks f) then
      let start := match since with Some t => t | None => now end in
      Some (Qred (now - start)) :: hold_durations (Some start) fs
    else None :: hold_durations None fs
  end.

(** ** Sequences of calls on a scroll handler *)

Inductive call : Type :=
| SmoothScroll (current_amount : Q)
| UpdateScrollTime (now : Q)
| ActivateScrollMode
| DeactivateScrollMode.

Definition do_call (s : ScrollHandler.t) (c : call) : option ScrollHandler.t :=
  match c with
  | SmoothScroll x => option_map fst (ScrollHandler.smooth_scroll s x)
  | UpdateScrollTime now => Some (ScrollHandler.update_scroll_time s now)
  | ActivateScrollMode => Some (ScrollHandler.activate_scroll_mode s)
  | DeactivateScrollMode => Some (ScrollHandler.deactivate_scroll_mode s)
  end.

Fixpoint do_calls (s : ScrollHandler.t) (cs : list call)
  : option ScrollHandler.t :=
  match cs with
  | [] => Some s
  | c :: cs =>
    match do_call s c with
    | Some s' => do_calls s' cs
    | None => None
    end
  end.

(** ** Sample hands

    Twenty-one landmarks around a wrist position; the five fingertips are
    given relative to the wrist, the other joints are fixed. *)

Module Sample.
Import HandDetector.

Definition number (pts : list (Z * Z)) : list Landmark :=
  map (fun ip => LM (Z.of_nat (fst ip)) (fst (snd ip)) (snd (snd ip)))
      (combine (seq 0 (length pts)) pts).

Definition hand (wrist thumb_tip index_tip middle_tip ring_tip pinky_tip
                 : Z * Z) : list Landmark :=
  let at_ (p : Z * Z) := (fst wrist + fst p, snd wrist + snd p) in
  number
    [ wrist;
      at_ (-20, -20); at_ (-40, -50); at_ (-50, -100); at_ thumb_tip;
      at_ (-10, -70); at_ (-12, -140); at_ (-14, -170); at_ index_tip;
      at_ (20, -70); at_ (25, -140); at_ (28, -175); at_ middle_tip;
      at_ (45, -65); at_ (50, -100); at_ (52, -80); at_ ring_tip;
      at_ (65, -55); at_ (72, -80); at_ (74, -65); at_ pinky_tip ].

(** Thumb, index and middle up, thumb tip on the index tip (10 and 5
    pixels apart), middle tip 45 pixels from the index tip. *)
Definition pinch_hand : list Landmark :=
  hand (320, 400) (-20, -190) (-15, -200) (30, -210) (52, -60) (74, -50).

(** The same hand with the thumb tip moved away from the index tip. *)
Definition open_hand : list Landmark :=
  hand (320, 400) (80, -100) (-15, -200) (30, -210) (52, -60) (74, -50).

(** Thumb and index up, middle, ring and pinky down, thumb tip on the
    index tip. *)
Definition right_click_hand : list Landmark :=
  hand (320, 400) (-20, -190) (-15, -200) (28, -100) (52, -60) (74, -50).

(** Ring and pinky up, the rest down, wrist on pixel row [wrist_y]. *)
Definition scroll_hand (wrist_y : Z) : list Landmark :=
  hand (320, wrist_y) (-60, -90) (-14, -100) (28, -100) (52, -150) (74, -120).

Definition at_time (now : Q) : Clock := CLK now now.

(** A pinch seen in one frame, released (or the hand lost) a tenth of a
    second later, and seen again nine tenths of a second after that. *)
Definition broken_pinch : list Main.Frame :=
  [ Main.FR pinch_hand (at_time 1000);
    Main.FR open_hand (at_time (10001 # 10));
    Main.FR pinch_hand (at_time 1001) ].

Definition lost_hand_pinch : list Main.Frame :=
  [ Main.FR pinch_hand (at_time 1000);
    Main.FR [] (at_time (10001 # 10));
    Main.FR pinch_hand (at_time 1001) ].

(** Scroll gesture with the wrist just below the neutral zone, then just
    above it one second later. *)
Definition scroll_across : list Main.Frame :=
  [ Main.FR (scroll_hand 289) (at_time 1000);
    Main.FR (scroll_hand 191) (at_time 1001) ].

(** A right-click pinch that is kept: the same hand four tenths of a
    second later (the click of the first frame sleeps for three tenths). *)
Definition held_right_click : list Main.Frame :=
  [ Main.FR right_click_hand (at_time 1000);
    Main.FR right_click_hand (at_time (10004 # 10)) ].

(** The scenario of the specification: scroll gesture with the wrist on
    the top row of the frame, for three frames a tenth of a second apart. *)
Definition top_edge_scroll : list Main.Frame :=
  [ Main.FR (scroll_hand 0) (at_time 1000);
    Main.FR (scroll_hand 0) (at_time (10001 # 10));
    Main.FR (scroll_hand 0) (at_time (10002 # 10)) ].

End Sample.

(** ** Invariants *)

(** The scroll handler keeps the configured window and a history that
    fits in it. *)
Definition history_bounded (s : ScrollHandler.t) : Prop :=
  ScrollHandler.history_length s = SCROLL_HISTORY_LENGTH
  /\ (length (ScrollHandler.scroll_history s) <= SCROLL_HISTORY_LENGTH)%nat.

(** ** src/mouse_controller.py: the pointer position *)

Module MouseController.

(** The screen size read from [autopy.screen.size()] by [__init__]. *)
Record t : Type := mk { w_screen : Q; h_screen : Q }.

(** [move]: the point handed to [autopy.mouse.move], mirrored in x. *)
Definition move (m : t) (x y : Q) : Q * Q := ((w_screen m - x)%Q, y).

Definition get_screen_size (m : t) : Q * Q := (w_screen m, h_screen m).

End MouseController.

(** The gesture handler as [GestureHandler(detector, mouse_controller)]
    builds it: the screen size is the controller's. *)
Definition new_gesture_handler (m : MouseController.t) : GestureHandler.t :=
  let '(w, h) := MouseController.get_screen_size m in GestureHandler.init w h.

(** ** src/utils.py: the frame-rate counter *)

Module FPSCounter.

Record t : Type := mk { prev_time : Q }.

Definition init : t := {| prev_time := 0 |}.

(** [update]; [current_time] is the value of [time.time()].  [None] is the
    [ZeroDivisionError] of two calls at the same clock reading. *)
Definition update (c : t) (current_time : Q) : option (t * Q) :=
  if Qeq_bool (prev_time c) 0 then
    Some ({| prev_time := current_time |}, 0%Q)
  else if Qeq_bool (current_time - prev_time c) 0 then None
  else
    Some ({| prev_time := current_time |},
          (1 / (current_time - prev_time c))%Q).

End FPSCounter.

(** ** src/camera.py

    What [cv2.VideoCapture(index, backend)] gives is an input: whether the
    device reports open and whether the test read succeeds, taken to be the
    same each time the same device is asked. *)

Module Camera.

Inductive backend : Type := CAP_DSHOW | CAP_DEFAULT.

Record probe : Type := PROBE { isOpened : bool; read_ok : bool }.

Definition CAMERA_PRIORITIES : list Z := [2; 0; 1; 3; 4].

(** One [for camera_idx in ...] loop; [cap] is the variable of that name,
    holding the index of the capture it refers to. *)
Fixpoint try_cameras (open : Z -> probe) (indices : list Z) (cap : option Z)
  : option Z :=
  match indices with
  | [] => cap
  | camera_idx :: rest =>
    if isOpened (open camera_idx) then
      if read_ok (open camera_idx) then Some camera_idx
      else try_cameras open rest None
    else try_cameras open rest None
  end.

(** [initialize_camera]: the backend and index of the capture returned;
    [None] is [SystemExit(1)]. *)
Definition initialize_camera (open : backend -> Z -> probe)
  : option (backend * Z) :=
  match try_cameras (open CAP_DSHOW) CAMERA_PRIORITIES None with
  | Some i =>
    if isOpened (open CAP_DSHOW i) then Some (CAP_DSHOW, i)
    else
      match try_cameras (open CAP_DEFAULT) (firstn 3 CAMERA_PRIORITIES)
              (Some i) with
      | Some j =>
        if isOpened (open CAP_DEFAULT j) then Some (CAP_DEFAULT, j) else None
      | None => None
      end
  | None =>
    match try_cameras (open CAP_DEFAULT) (firstn 3 CAMERA_PRIORITIES) None with
    | Some j =>
      if isOpened (open CAP_DEFAULT j) then Some (CAP_DEFAULT, j) else None
    | None => None
    end
  end.

(** A device that opens and delivers its test frame. *)
Definition works (p : probe) : bool := isOpened p && read_ok p.

End Camera.

(** ** Further observations *)

(** The test of [process_frame] for the scroll gesture: only ring and
    pinky up. *)
Definition scroll_gesture (fingers : HandDetector.Fingers) : bool :=
  (HandDetector.pinky fingers =? 1) && (HandDetector.ring fingers =? 1)
  && (HandDetector.thumb fingers + HandDetector.index fingers
      + HandDetector.middle fingers =? 0).

Definition is_click (c : command) : bool :=
  match c with Click | RightClick => true | _ => false end.

Definition is_move (c : command) : bool :=
  match c with Move _ _ => true | _ => false end.

(** The last [n] elements of a list. *)
Definition last_samples (n : nat) (xs : list Q) : list Q :=
  skipn (length xs - n) xs.

(** The cursor position kept by the handler lies on the screen. *)
Definition cursor_on_screen (g : GestureHandler.t) : Prop :=
  (0 <= GestureHandler.ploc_x g <= GestureHandler.w_screen g)%Q
  /\ (0 <= GestureHandler.ploc_y g <= GestureHandler.h_screen g)%Q.

(** Every [move] command of a list points into a screen of size [w], [h],
    and so does the mirrored point given to [autopy]. *)
Definition moves_on_screen (w h : Q) (cmds : list command) : Prop :=
  Forall (fun c =>
            match c with
            | Move x y =>
              (0 <= x <= w)%Q /\ (0 <= y <= h)%Q
              /\ (0 <= fst (MouseController.move (MouseController.mk w h) x y)
                  <= w)%Q
            | _ => True
            end) cmds.

(** A flag of [fingers_up]. *)
Definition is_flag (z : Z) : Prop := z = 0 \/ z = 1.

(** All samples of a list lie in [[lo, hi]]. *)
Definition samples_within (lo hi : Q) (xs : list Q) : Prop :=
  Forall (fun v => (lo <= v <= hi)%Q) xs.

(** Every scroll command of a list scrolls by at most [bound] units. *)
Definition scroll_amounts_within (bound : Z) (cmds : list command) : Prop :=
  Forall (fun c =>
            match c with
            | Scroll amount => - bound <= amount <= bound
            | _ => True
            end) cmds.

(** The wrist of a frame, when a hand is seen, is on a row of the camera
    frame. *)
Definition wrist_in_frame (f : Main.Frame) : Prop :=
  match Main.landmarks f with
  | [] => True
  | wrist :: _ => 0 <= HandDetector.lm_y wrist <= CAMERA_HEIGHT
  end.

(** * Properties *)

(** ** Comparisons of rationals *)

Lemma Qltb_lt (a b : Q) : Qltb a b = true <-> (a < b)%Q.
Proof.
  unfold Qltb. rewrite negb_true_iff.
  split; intro H.
  - apply Qnot_le_lt. intro Hle. apply Qle_bool_iff in Hle. congruence.
  - destruct (Qle_bool b a) eqn:E; [|reflexivity].
    apply Qle_bool_iff in E. exfalso. lra.
Qed.

Lemma Qltb_ge (a b : Q) : Qltb a b = false <-> (b <= a)%Q.
Proof.
  unfold Qltb. rewrite negb_false_iff. apply Qle_bool_iff.
Qed.

Lemma Qle_bool_gt (a b : Q) : Qle_bool a b = false <-> (b < a)%Q.
Proof.
  rewrite <- Qltb_lt. unfold Qltb. now rewrite negb_true_iff.
Qed.

(** Turns every boolean comparison of rationals among the hypotheses into
    the order it decides. *)
Ltac q_orders :=
  repeat match goal with
  | H : Qltb _ _ = true |- _ => apply Qltb_lt in H
  | H : Qltb _ _ = false |- _ => apply Qltb_ge in H
  | H : Qle_bool _ _ = true |- _ => apply Qle_bool_iff in H
  | H : Qle_bool _ _ = false |- _ => apply Qle_bool_gt in H
  | H : _ && _ = true |- _ => apply andb_true_iff in H; destruct H
  end.

Lemma Qsquare (x : Q) : (x ^ 2 == x * x)%Q.
Proof. reflexivity. Qed.

(** ** The scroll speed curve *)

Section ScrollSpeed.
Import ScrollHandler.

Lemma neutral_zone_bounds :
  neutral_zone_height = 96 /\ neutral_top = 192 /\ neutral_bottom = 288.
Proof. repeat split; reflexivity. Qed.

Lemma speed_inside (y : Q) :
  (192 <= y)%Q -> (y <= 288)%Q -> get_progressive_speed y = 0%Q.
Proof.
  intros Hlo Hhi. unfold get_progressive_speed.
  change (inject_Z neutral_top) with 192%Q.
  change (inject_Z neutral_bottom) with 288%Q.
  apply Qle_bool_iff in Hlo, Hhi. now rewrite Hlo, Hhi.
Qed.

(** What the code computes above the zone: the ramp is added to [-base],
    not subtracted from it. *)
Lemma speed_above (y : Q) :
  (y < 192)%Q ->
  (get_progressive_speed y == -(5) + 15 * ((192 - y) / 192) ^ 2)%Q.
Proof.
  intros Hy. unfold get_progressive_speed.
  change (inject_Z neutral_top) with 192%Q.
  change (inject_Z neutral_bottom) with 288%Q.
  destruct (Qle_bool 192 y) eqn:E1; q_orders; [lra|].
  cbn [andb].
  destruct (Qltb y 192) eqn:E2; q_orders; [|lra].
  unfold BASE_SCROLL_SENSITIVITY, MAX_SCROLL_SENSITIVITY.
  rewrite !Qsquare. field.
Qed.

Lemma speed_below (y : Q) :
  (288 < y)%Q ->
  (get_progressive_speed y == 5 + 15 * ((y - 288) / 192) ^ 2)%Q.
Proof.
  intros Hy. unfold get_progressive_speed.
  change (inject_Z neutral_top) with 192%Q.
  change (inject_Z neutral_bottom) with 288%Q.
  change (inject_Z CAMERA_HEIGHT) with 480%Q.
  destruct (Qle_bool y 288) eqn:E1; q_orders; [lra|].
  rewrite andb_false_r.
  destruct (Qltb y 192) eqn:E2; q_orders; [lra|].
  unfold BASE_SCROLL_SENSITIVITY, MAX_SCROLL_SENSITIVITY.
  rewrite !Qsquare. field.
Qed.

(** The code and the formula of the specification differ above the zone
    by twice the ramp. *)
Lemma speed_above_vs_spec (y : Q) :
  (y < 192)%Q ->
  (get_progressive_speed y
   == spec_speed_above y + 30 * ((192 - y) / 192) ^ 2)%Q.
Proof.
  intros Hy. rewrite (speed_above y Hy). unfold spec_speed_above.
  change (inject_Z neutral_top) with 192%Q.
  unfold BASE_SCROLL_SENSITIVITY, MAX_SCROLL_SENSITIVITY.
  rewrite !Qsquare. field.
Qed.

(** C1 (the code departs from the claim).  At the top edge [y = 0] of a
    480-pixel frame the formula of the specification gives [-20], the
    maximum speed upward; [get_progressive_speed] returns [+10], because
    it adds the quadratic ramp to [-base] where the formula subtracts
    it. *)
Theorem C1_top_edge_speed_is_plus_ten :
  CAMERA_HEIGHT = 480
  /\ (spec_speed_above 0 == -(20))%Q
  /\ (get_progressive_speed 0 == 10)%Q
  /\ ~ (get_progressive_speed 0 == spec_speed_above 0)%Q.
Proof.
  repeat split; try reflexivity.
  intro H. vm_compute in H. discriminate.
Qed.

(** The scenario of the specification at the top edge: the three frames
    scroll by [+150] (down), where the specification expects about
    [-300]. *)
Lemma top_edge_scenario_scrolls_down :
  option_map snd (Main.run (GestureHandler.init 1920 1080)
                    Sample.top_edge_scroll)
  = Some [[Scroll 150]; [Scroll 150]; [Scroll 150]].
Proof. vm_compute. reflexivity. Qed.

(** C10.  The neutral zone is the band of height [H/5 = 96] centred on
    [H/2 = 240], and for every position strictly between its edges
    [get_progressive_speed] returns exactly [0]. *)
Theorem C10_neutral_zone_speed_zero (y : Q)
    (Htop : (inject_Z neutral_top < y)%Q)
    (Hbottom : (y < inject_Z neutral_bottom)%Q) :
  get_progressive_speed y = 0%Q
  /\ neutral_bottom - neutral_top = CAMERA_HEIGHT / 5
  /\ neutral_top + neutral_bottom = CAMERA_HEIGHT.
Proof.
  change (inject_Z neutral_top) with 192%Q in Htop.
  change (inject_Z neutral_bottom) with 288%Q in Hbottom.
  split; [apply speed_inside; lra | split; reflexivity].
Qed.

Lemma C10_neutral_zone_speed_zero_witness :
  get_progressive_speed 240 = 0%Q
  /\ neutral_bottom - neutral_top = CAMERA_HEIGHT / 5
  /\ neutral_top + neutral_bottom = CAMERA_HEIGHT.
Proof.
  apply (C10_neutral_zone_speed_zero 240); reflexivity.
Defined.

(** C3 (as the claim states it, refuted).  At [y = 0] the speed is not
    [-max]: it is [+10].  And the speed is not continuous at the edge of
    the zone: it is [0] on the edge row 288 and more than [base = 5] one
    pixel row further down. *)
Lemma C3_counterexample :
  ~ (get_progressive_speed 0 == - MAX_SCROLL_SENSITIVITY)%Q
  /\ get_progressive_speed 288 = 0%Q
  /\ (BASE_SCROLL_SENSITIVITY < get_progressive_speed 289)%Q.
Proof.
  split; [|split].
  - intro H. vm_compute in H. discriminate.
  - reflexivity.
  - reflexivity.
Qed.

(** C3 (amended).  Below the neutral zone: the speed is [0] on both
    inner edges of the zone, more than [base] everywhere past the lower
    edge (a jump at the edge), strictly increasing from the lower edge
    toward the bottom of the frame, changes by at most [5/32] per pixel
    on the ramp, and is exactly [+max] at [y = H]. *)
Theorem C3_speed_below_zone (y1 y2 : Q)
    (Hedge : (inject_Z neutral_bottom < y1)%Q)
    (Hlt : (y1 < y2)%Q)
    (Hframe : (y2 <= inject_Z CAMERA_HEIGHT)%Q) :
  get_progressive_speed (inject_Z neutral_top) = 0%Q
  /\ get_progressive_speed (inject_Z neutral_bottom) = 0%Q
  /\ (BASE_SCROLL_SENSITIVITY < get_progressive_speed y1)%Q
  /\ (get_progressive_speed y1 < get_progressive_speed y2)%Q
  /\ (get_progressive_speed y2 - get_progressive_speed y1
      <= (5 # 32) * (y2 - y1))%Q
  /\ (get_progressive_speed (inject_Z CAMERA_HEIGHT)
      == MAX_SCROLL_SENSITIVITY)%Q.
Proof.
  change (inject_Z neutral_bottom) with 288%Q in *.
  change (inject_Z neutral_top) with 192%Q.
  change (inject_Z CAMERA_HEIGHT) with 480%Q in *.
  unfold BASE_SCROLL_SENSITIVITY, MAX_SCROLL_SENSITIVITY.
  assert (H2 : (288 < y2)%Q) by lra.
  pose proof (speed_below y1 Hedge) as E1.
  pose proof (speed_below y2 H2) as E2.
  rewrite Qsquare in E1, E2.
  split; [reflexivity|]. split; [reflexivity|].
  rewrite E1, E2.
  assert (D1 : ((y1 - 288) / 192 == (y1 - 288) * (1 # 192))%Q) by field.
  assert (D2 : ((y2 - 288) / 192 == (y2 - 288) * (1 # 192))%Q) by field.
  rewrite D1, D2.
  split; [nra|]. split; [nra|]. split; [nra|reflexivity].
Qed.

Lemma C3_speed_below_zone_witness :
  get_progressive_speed (inject_Z neutral_top) = 0%Q
  /\ get_progressive_speed (inject_Z neutral_bottom) = 0%Q
  /\ (BASE_SCROLL_SENSITIVITY < get_progressive_speed 300)%Q
  /\ (get_progressive_speed 300 < get_progressive_speed 480)%Q
  /\ (get_progressive_speed 480 - get_progressive_speed 300
      <= (5 # 32) * (480 - 300))%Q
  /\ (get_progressive_speed (inject_Z CAMERA_HEIGHT)
      == MAX_SCROLL_SENSITIVITY)%Q.
Proof.
  apply (C3_speed_below_zone 300 480); vm_compute; congruence.
Defined.

End ScrollSpeed.

(** ** The coordinate mapper *)

Section CoordinateMapper.
Import GestureHandler.

(** [np_interp] on a table with [x0 < x1], in closed form. *)
Lemma np_interp_cases (x x0 x1 f0 f1 : Q) :
  (x0 < x1)%Q ->
  (np_interp x (x0, x1) (f0, f1)
   == if Qltb x x0 then f0
      else if Qltb x1 x then f1
      else f0 + (x - x0) / (x1 - x0) * (f1 - f0))%Q.
Proof.
  intros Hlt. unfold np_interp.
  destruct (Qltb x x0) eqn:E0; [reflexivity|].
  destruct (Qltb x1 x) eqn:E1; [reflexivity|].
  destruct (Qeq_bool x x1) eqn:E2.
  - apply Qeq_bool_iff in E2. rewrite E2. field. lra.
  - field. lra.
Qed.

Lemma Qltb_inject_Z (a b : Z) : Qltb (inject_Z a) (inject_Z b) = (a <? b).
Proof.
  destruct (a <? b) eqn:E.
  - apply Qltb_lt. rewrite <- Zlt_Qlt. now apply Z.ltb_lt.
  - apply Qltb_ge. rewrite <- Zle_Qle. now apply Z.ltb_ge.
Qed.

Lemma inject_Z_minus_const (a b : Z) :
  (inject_Z (a - b) == inject_Z a - inject_Z b)%Q.
Proof.
  unfold Z.sub. now rewrite inject_Z_plus, inject_Z_opp.
Qed.

(** C2 (as the claim states it, refuted).  On a 1920-pixel-wide screen
    the camera column 0, left of the margin, is mapped to screen column
    0, not to the value [-4800/11] of the linear map continued to the
    left; the camera column 640 is mapped to 1920, the screen width. *)
Lemma C2_counterexample :
  (x_mapped (init 1920 1080) 0 == 0)%Q
  /\ (spec_linear_map FRAME_REDUCTION CAMERA_WIDTH 1920 0 == -(4800) # 11)%Q
  /\ ~ (x_mapped (init 1920 1080) 0
        == spec_linear_map FRAME_REDUCTION CAMERA_WIDTH 1920 0)%Q
  /\ ~ (x_mapped (init 1920 1080) 640
        == spec_linear_map FRAME_REDUCTION CAMERA_WIDTH 1920 640)%Q.
Proof.
  split; [reflexivity|]. split; [reflexivity|].
  split; intro H; vm_compute in H; discriminate.
Qed.

(** C2 (amended).  For every integer camera coordinate the mapper is the
    linear map of [[margin, dimension - margin]] onto
    [[0, screen_dimension]] inside that interval, and outside it the
    value is clamped: [0] below [margin], [screen_dimension] above
    [dimension - margin]. *)
Theorem C2_mapper_linear_inside_clamped_outside (g : t) (x1 y1 : Z) :
  (x_mapped g x1
   == if x1 <? FRAME_REDUCTION then 0
      else if CAMERA_WIDTH - FRAME_REDUCTION <? x1 then w_screen g
      else spec_linear_map FRAME_REDUCTION CAMERA_WIDTH (w_screen g) x1)%Q
  /\
  (y_mapped g y1
   == if y1 <? FRAME_REDUCTION then 0
      else if CAMERA_HEIGHT - FRAME_REDUCTION <? y1 then h_screen g
      else spec_linear_map FRAME_REDUCTION CAMERA_HEIGHT (h_screen g) y1)%Q.
Proof.
  unfold x_mapped, y_mapped, spec_linear_map.
  split.
  - rewrite np_interp_cases by reflexivity.
    rewrite !Qltb_inject_Z.
    destruct (x1 <? FRAME_REDUCTION); [reflexivity|].
    destruct (CAMERA_WIDTH - FRAME_REDUCTION <? x1); [reflexivity|].
    rewrite (inject_Z_minus_const x1 FRAME_REDUCTION).
    change (inject_Z (CAMERA_WIDTH - 2 * FRAME_REDUCTION)) with 440%Q.
    change (inject_Z (CAMERA_WIDTH - FRAME_REDUCTION)) with 540%Q.
    change (inject_Z FRAME_REDUCTION) with 100%Q.
    field.
  - rewrite np_interp_cases by reflexivity.
    rewrite !Qltb_inject_Z.
    destruct (y1 <? FRAME_REDUCTION); [reflexivity|].
    destruct (CAMERA_HEIGHT - FRAME_REDUCTION <? y1); [reflexivity|].
    rewrite (inject_Z_minus_const y1 FRAME_REDUCTION).
    change (inject_Z (CAMERA_HEIGHT - 2 * FRAME_REDUCTION)) with 280%Q.
    change (inject_Z (CAMERA_HEIGHT - FRAME_REDUCTION)) with 380%Q.
    change (inject_Z FRAME_REDUCTION) with 100%Q.
    field.
Qed.

End CoordinateMapper.

(** ** The pinch detector *)

Section PinchDetector.
Import HandDetector.

(** The boolean comparison of a length with an integer threshold decides
    the comparison of the real numbers. *)
Lemma length_ltb_lt (n threshold : Z) :
  0 <= n ->
  length_ltb (Sqrt n) threshold = true
  <-> (length_val (Sqrt n) < IZR threshold)%R.
Proof.
  intros Hn. unfold length_ltb, length_val.
  rewrite andb_true_iff, Z.ltb_lt, Z.ltb_lt.
  assert (Hn' : (0 <= IZR n)%R) by now apply IZR_le.
  split.
  - intros [Ht Hlt].
    assert (Ht' : (0 < IZR threshold)%R) by now apply IZR_lt.
    apply IZR_lt in Hlt. rewrite mult_IZR in Hlt.
    rewrite <- (sqrt_square (IZR threshold)) by Lra.lra.
    apply sqrt_lt_1; try Lra.lra.
  - intros Hlt.
    pose proof (sqrt_pos (IZR n)) as Hpos.
    assert (Ht' : (0 < IZR threshold)%R) by Lra.lra.
    split; [now apply lt_IZR|].
    apply lt_IZR. rewrite mult_IZR.
    rewrite <- (sqrt_sqrt (IZR n)) by assumption.
    apply Rmult_le_0_lt_compat; assumption.
Qed.

Lemma hypot_euclidean (x1 y1 x2 y2 : Z) :
  length_val (hypot (x2 - x1) (y2 - y1))
  = sqrt ((IZR x2 - IZR x1) ^ 2 + (IZR y2 - IZR y1) ^ 2)%R.
Proof.
  unfold hypot, length_val. f_equal.
  rewrite plus_IZR, !mult_IZR, !minus_IZR. ring.
Qed.

Lemma nth_error_in_range {A} (l : list A) (i : nat) :
  (i < length l)%nat -> exists a, nth_error l i = Some a.
Proof.
  intros Hi. destruct (nth_error l i) eqn:E; [eauto|].
  apply nth_error_None in E. lia.
Qed.

(** C8.  For all landmark ids [p1], [p2] and every landmark list,
    [find_distance] returns (it does not raise).  When the list has
    fewer than [max p1 p2 + 1] entries the length returned is the
    sentinel [0], which is below the pinch threshold; otherwise both
    landmarks exist and the length is the Euclidean distance between
    their pixel positions. *)
Theorem C8_find_distance_total (l : list Landmark) (p1 p2 : nat) :
  exists len info,
    find_distance {| lm_list := Some l |} p1 p2 = Some (len, info)
    /\ (((length l < Nat.max p1 p2 + 1)%nat
         /\ len = Sqrt 0
         /\ length_val len = 0%R
         /\ length_ltb len PINCH_DISTANCE_THRESHOLD = true)
        \/
        ((Nat.max p1 p2 + 1 <= length l)%nat
         /\ exists a b,
             nth_error l p1 = Some a /\ nth_error l p2 = Some b
             /\ length_val len
                = sqrt ((IZR (lm_x b) - IZR (lm_x a)) ^ 2
                        + (IZR (lm_y b) - IZR (lm_y a)) ^ 2)%R)).
Proof.
  unfold find_distance. cbn [lm_list].
  destruct (length l <? Nat.max p1 p2 + 1)%nat eqn:E.
  - apply Nat.ltb_lt in E.
    exists (Sqrt 0), [0; 0; 0; 0; 0; 0]. split; [reflexivity|].
    left. repeat split; try assumption.
    cbn. apply sqrt_0.
  - apply Nat.ltb_ge in E.
    destruct (nth_error_in_range l p1) as [a Ha]; [lia|].
    destruct (nth_error_in_range l p2) as [b Hb]; [lia|].
    rewrite Ha, Hb. eexists _, _. split; [reflexivity|].
    right. split; [assumption|].
    exists a, b. repeat split. apply hypot_euclidean.
Qed.

(** Before [find_position] has run the detector has no [lm_list]; the
    guard of [find_distance] returns the sentinel then too. *)
Lemma find_distance_no_attribute (p1 p2 : nat) :
  find_distance {| lm_list := None |} p1 p2
  = Some (Sqrt 0, [0; 0; 0; 0; 0; 0]).
Proof. reflexivity. Qed.

End PinchDetector.

(** ** The state of the scroll handler *)

Section ScrollState.
Import ScrollHandler.

Lemma init_bounded : history_bounded init.
Proof. split; cbn; [reflexivity | unfold SCROLL_HISTORY_LENGTH; lia]. Qed.

Lemma smooth_scroll_bounded (s s' : t) (x mean_x : Q) :
  history_bounded s ->
  smooth_scroll s x = Some (s', mean_x) ->
  history_bounded s'.
Proof.
  intros [Hw Hlen] H. unfold smooth_scroll in H.
  remember (scroll_history s ++ [x]) as h eqn:Eh.
  assert (Hh : length h = S (length (scroll_history s))).
  { subst h. rewrite length_app. cbn. lia. }
  remember (if (history_length s <? length h)%nat then tl h else h)
    as h' eqn:Eh'.
  assert (Hh' : (length h' <= SCROLL_HISTORY_LENGTH)%nat).
  { subst h'. destruct (history_length s <? length h)%nat eqn:E.
    - destruct h; cbn in *; lia.
    - apply Nat.ltb_ge in E. lia. }
  destruct h' as [|q rest]; [discriminate|].
  inversion H; subst s' mean_x.
  split; cbn [history_length scroll_history set_scroll_history]; assumption.
Qed.

Lemma do_call_bounded (s s' : t) (c : call) :
  history_bounded s -> do_call s c = Some s' -> history_bounded s'.
Proof.
  intros Hs H. destruct c; cbn in H.
  - destruct (smooth_scroll s current_amount) as [[s1 m]|] eqn:E;
      [|discriminate].
    cbn in H. inversion H; subst. eapply smooth_scroll_bounded; eauto.
  - inversion H; subst. exact Hs.
  - inversion H; subst. destruct Hs as [Hw _].
    split; cbn; [assumption | lia].
  - inversion H; subst. exact Hs.
Qed.

Lemma do_calls_bounded (cs : list call) (s s' : t) :
  history_bounded s -> do_calls s cs = Some s' -> history_bounded s'.
Proof.
  revert s. induction cs as [|c cs IH]; intros s Hs H; cbn in H.
  - inversion H; subst. exact Hs.
  - destruct (do_call s c) as [s1|] eqn:E; [|discriminate].
    eapply IH; [|exact H]. eapply do_call_bounded; eauto.
Qed.

(** C7.  In every state [s] that calls on a fresh handler can reach:
    [activate_scroll_mode] sets the flag and empties the history (the
    time of the last scroll stays); [deactivate_scroll_mode] changes the
    flag to false and nothing else, so the history and the time of the
    last scroll stay; and the history holds at most 3 samples. *)
Theorem C7_scroll_mode_transitions (cs : list call) (s : t)
    (Hreach : do_calls init cs = Some s) :
  (scroll_mode (activate_scroll_mode s) = true
   /\ scroll_history (activate_scroll_mode s) = []
   /\ last_scroll_time (activate_scroll_mode s) = last_scroll_time s
   /\ history_length (activate_scroll_mode s) = history_length s)
  /\ deactivate_scroll_mode s
     = {| scroll_mode := false;
          scroll_history := scroll_history s;
          last_scroll_time := last_scroll_time s;
          history_length := history_length s |}
  /\ (length (scroll_history s) <= 3)%nat.
Proof.
  split; [repeat split|]. split; [reflexivity|].
  apply (do_calls_bounded cs init s init_bounded Hreach).
Qed.

Lemma C7_scroll_mode_transitions_witness :
  let s := {| scroll_mode := true;
              scroll_history := [2; 3; 4]%Q;
              last_scroll_time := 7;
              history_length := 3 |} in
  (scroll_mode (activate_scroll_mode s) = true
   /\ scroll_history (activate_scroll_mode s) = []
   /\ last_scroll_time (activate_scroll_mode s) = last_scroll_time s
   /\ history_length (activate_scroll_mode s) = history_length s)
  /\ deactivate_scroll_mode s
     = {| scroll_mode := false;
          scroll_history := scroll_history s;
          last_scroll_time := last_scroll_time s;
          history_length := history_length s |}
  /\ (length (scroll_history s) <= 3)%nat.
Proof.
  apply (C7_scroll_mode_transitions
           [ActivateScrollMode; SmoothScroll 1; SmoothScroll 2;
            SmoothScroll 3; SmoothScroll 4; UpdateScrollTime 7]).
  reflexivity.
Defined.

End ScrollState.

(** ** The gesture arbiter, frame by frame *)

Import HandDetector GestureHandler.

(** Unfolds the computations of a frame down to matches on the state;
    [frame_simpl] then evaluates them, leaving arithmetic alone. *)
Ltac unfold_frame :=
  unfold process_frame, _handle_scroll, _handle_movement,
    _handle_left_click, _handle_right_click, release_drag, item,
    bind, ret, get, modify, emit, lift.

Ltac frame_simpl :=
  cbn -[nth_error np_interp x_mapped y_mapped Qltb Qle_bool Qabs
        ScrollHandler.get_progressive_speed ScrollHandler.smooth_scroll].

Lemma release_drag_run (g : t) :
  release_drag g
  = Some (tt,
          if drag_active g
          then set_drag_mode false (set_drag_active false g) else g,
          if drag_active g then [ToggleDrag false] else []).
Proof.
  unfold release_drag, bind, ret, get, modify, emit.
  destruct (drag_active g); reflexivity.
Qed.

(** C9.  When the landmark list is empty while a drag is confirmed,
    [process_frame] sends the end-drag command [toggle_drag(False)] in
    that frame and no other command, and leaves the drag state idle. *)
Theorem C9_hand_lost_ends_drag (d : HandDetector.t) (clk : Clock)
    (fingers : Fingers) (g : t)
    (Hdrag : drag_active g = true) :
  process_frame d clk [] fingers g
  = Some (tt, set_drag_mode false (set_drag_active false g),
          [ToggleDrag false]).
Proof.
  cbn [process_frame]. rewrite release_drag_run, Hdrag. reflexivity.
Qed.

Lemma C9_hand_lost_ends_drag_witness :
  let g := set_drag_active true (set_drag_mode true (init 1920 1080)) in
  process_frame {| lm_list := Some [] |} (CLK 1000 1000) []
    (FV 0 0 0 0 0) g
  = Some (tt, set_drag_mode false (set_drag_active false g),
          [ToggleDrag false]).
Proof.
  intro g.
  apply (C9_hand_lost_ends_drag {| lm_list := Some [] |} (CLK 1000 1000)
           (FV 0 0 0 0 0) g).
  reflexivity.
Defined.

(** C6 (as the claim states it, refuted).  A right-click pinch is seen at
    1000.0 s: the frame moves the cursor, starts the hold timer and sends a
    right-click.  At 1000.4 s the same hand is seen, fingers
    [[1,1,0,0,0]], thumb tip 11 pixels from the index tip, and the drag is
    not confirmed when the frame begins.  That frame confirms the drag: it
    sends the begin-drag command and no right-click. *)
Lemma C6_counterexample :
  exists g1 g2 x1 y1 x2 y2,
    Main.run (init 1920 1080) (firstn 1 Sample.held_right_click)
    = Some (g1, [[Move x1 y1; RightClick]])
    /\ drag_active g1 = false
    /\ fingers_up {| lm_list := Some Sample.right_click_hand |}
       = FV 1 1 0 0 0
    /\ option_map (fun r => length_ltb (fst r) PINCH_DISTANCE_THRESHOLD)
         (find_distance {| lm_list := Some Sample.right_click_hand |} 4 8)
       = Some true
    /\ process_frame {| lm_list := Some Sample.right_click_hand |}
         (Sample.at_time (10004 # 10)) Sample.right_click_hand
         (FV 1 1 0 0 0) g1
       = Some (tt, g2, [Move x2 y2; ToggleDrag true])
    /\ ~ In RightClick [Move x2 y2; ToggleDrag true]
    /\ Main.run (init 1920 1080) Sample.held_right_click
       = Some (g2, [[Move x1 y1; RightClick];
                    [Move x2 y2; ToggleDrag true]]).
Proof.
  eexists _, _, _, _, _, _.
  split; [vm_compute; reflexivity|].
  split; [reflexivity|].
  split; [reflexivity|].
  split; [reflexivity|].
  split; [vm_compute; reflexivity|].
  split; [|vm_compute; reflexivity].
  cbn. intuition discriminate.
Qed.

(** C6 (amended).  In a frame with fingers [[1,1,0,0,0]] and the thumb
    tip within the pinch threshold of the index tip, while the drag is not
    confirmed
    and the hold has not yet passed the threshold (the timer is not
    running, or has run for at most 0.3 s), [process_frame] moves the
    cursor, keeps the hold timer running (starting it at the current
    time when it was not running) and sends a right-click in the same
    frame. *)
Theorem C6_right_click_during_hold (d : HandDetector.t) (clk : Clock)
    (l : list Landmark) (g : t) (len : Length) (info : list Z)
    (Hhand : (21 <= length l)%nat)
    (Hdist : find_distance d 4 8 = Some (len, info))
    (Hpinch : length_ltb len PINCH_DISTANCE_THRESHOLD = true)
    (Hidle : drag_active g = false)
    (Hhold : drag_mode g = false
             \/ (time_first clk - drag_start_time g
                 <= DRAG_CLICK_THRESHOLD)%Q) :
  exists g' x y,
    process_frame d clk l (FV 1 1 0 0 0) g
    = Some (tt, g', [Move x y; RightClick])
    /\ drag_mode g' = true
    /\ drag_active g' = false
    /\ drag_start_time g'
       = (if drag_mode g then drag_start_time g else time_first clk).
Proof.
  destruct (nth_error_in_range l 8) as [i8 E8]; [lia|].
  destruct (nth_error_in_range l 12) as [i12 E12]; [lia|].
  destruct (nth_error_in_range l 4) as [i4 E4]; [lia|].
  destruct (nth_error_in_range l 20) as [i20 E20]; [lia|].
  destruct (nth_error_in_range l 0) as [i0 E0]; [lia|].
  destruct l as [|l0 l]; [cbn in Hhand; lia|].
  assert (Hcase : drag_mode g = false
                  \/ drag_mode g = true
                     /\ Qltb DRAG_CLICK_THRESHOLD
                          (time_first clk - drag_start_time g) = false).
  { destruct (drag_mode g); [right|left; reflexivity].
    destruct Hhold as [Hhold|Hhold]; [discriminate|].
    split; [reflexivity | now apply Qltb_ge]. }
  unfold_frame.
  rewrite E8, E12, E4, E20, E0.
  destruct Hcase as [Em|[Em Eh]];
    repeat (frame_simpl; rewrite ?Hdist, ?Hpinch, ?Em, ?Eh, ?Hidle);
    eexists _, _, _; (split; [reflexivity|]); cbn; rewrite ?Em; auto.
Qed.

Lemma C6_right_click_during_hold_witness :
  exists g' x y,
    process_frame {| lm_list := Some Sample.right_click_hand |}
      (CLK 1000 1000) Sample.right_click_hand (FV 1 1 0 0 0)
      (init 1920 1080)
    = Some (tt, g', [Move x y; RightClick])
    /\ drag_mode g' = true
    /\ drag_active g' = false
    /\ drag_start_time g'
       = (if drag_mode (init 1920 1080)
          then drag_start_time (init 1920 1080)
          else time_first (CLK 1000 1000)).
Proof.
  apply (C6_right_click_during_hold
           {| lm_list := Some Sample.right_click_hand |} (CLK 1000 1000)
           Sample.right_click_hand (init 1920 1080)
           (Sqrt 125) [300; 210; 305; 200; 302; 205]).
  - vm_compute. lia.
  - reflexivity.
  - reflexivity.
  - reflexivity.
  - left. reflexivity.
Defined.

(** The frame that confirms the drag (timer running for more than 0.3 s)
    sends the begin-drag command and no right-click: the clicks are
    skipped once [drag_active] is set. *)
Lemma confirming_frame_sends_no_click (d : HandDetector.t) (clk : Clock)
    (l : list Landmark) (g : t) (len : Length) (info : list Z) :
  (21 <= length l)%nat ->
  find_distance d 4 8 = Some (len, info) ->
  length_ltb len PINCH_DISTANCE_THRESHOLD = true ->
  drag_active g = false ->
  drag_mode g = true ->
  (DRAG_CLICK_THRESHOLD < time_first clk - drag_start_time g)%Q ->
  exists g' x y,
    process_frame d clk l (FV 1 1 0 0 0) g
    = Some (tt, g', [Move x y; ToggleDrag true])
    /\ drag_active g' = true.
Proof.
  intros Hhand Hdist Hpinch Hidle Hmode Hold.
  destruct (nth_error_in_range l 8) as [i8 E8]; [lia|].
  destruct (nth_error_in_range l 12) as [i12 E12]; [lia|].
  destruct (nth_error_in_range l 4) as [i4 E4]; [lia|].
  destruct (nth_error_in_range l 20) as [i20 E20]; [lia|].
  destruct (nth_error_in_range l 0) as [i0 E0]; [lia|].
  destruct l as [|l0 l]; [cbn in Hhand; lia|].
  apply Qltb_lt in Hold.
  unfold_frame.
  rewrite E8, E12, E4, E20, E0.
  repeat (frame_simpl; rewrite ?Hdist, ?Hpinch, ?Hmode, ?Hold, ?Hidle).
  eexists _, _, _. split; reflexivity.
Qed.

(** *** What each handler can do to the scroll timer and the button *)

Lemma bind_Some {A B} (m : M A) (k : A -> M B) (g g2 : t) (b : B)
    (c : list command) :
  bind m k g = Some (b, g2, c) ->
  exists a g1 c1 c2,
    m g = Some (a, g1, c1) /\ k a g1 = Some (b, g2, c2) /\ c = c1 ++ c2.
Proof.
  unfold bind. intros H.
  destruct (m g) as [[[a g1] c1]|]; [|discriminate].
  destruct (k a g1) as [[[b' g2'] c2]|] eqn:Ek; [|discriminate].
  inversion H; subst. exists a, g1, c1, c2. auto.
Qed.

Lemma count_scroll_app (c1 c2 : list command) :
  count_scroll (c1 ++ c2) = (count_scroll c1 + count_scroll c2)%nat.
Proof.
  unfold count_scroll. now rewrite filter_app, length_app.
Qed.

Lemma drag_protocol_app (c1 c2 : list command) (held mid : bool) :
  drag_protocol held c1 = Some mid ->
  drag_protocol held (c1 ++ c2) = drag_protocol mid c2.
Proof.
  revert held. induction c1 as [|c c1 IH]; intros held H; cbn in *.
  - now inversion H.
  - destruct c; try (now apply IH).
    destruct (Bool.eqb state held); [discriminate | now apply IH].
Qed.

Lemma lift_Some {A} (o : option A) (g g' : t) (a : A) (c : list command) :
  lift o g = Some (a, g', c) -> o = Some a /\ g' = g /\ c = [].
Proof.
  unfold lift. destruct o; [|discriminate].
  intros H. inversion H; subst. auto.
Qed.

(** Inversion of a computation that returned, one step at a time. *)
Ltac minv_step :=
  match goal with
  | H : bind _ _ _ = Some _ |- _ =>
    apply bind_Some in H;
    let a := fresh "a" in let g1 := fresh "g" in
    let c1 := fresh "c" in let c2 := fresh "c" in
    let H1 := fresh "Hm" in let H2 := fresh "Hk" in let Hc := fresh "Hc" in
    destruct H as (a & g1 & c1 & c2 & H1 & H2 & Hc);
    cbv beta zeta in H1, H2; subst
  | H : get _ = Some _ |- _ => unfold get in H; inversion H; subst; clear H
  | H : ret _ _ = Some _ |- _ => unfold ret in H; inversion H; subst; clear H
  | H : modify _ _ = Some _ |- _ =>
    unfold modify in H; inversion H; subst; clear H
  | H : emit _ _ = Some _ |- _ =>
    unfold emit in H; inversion H; subst; clear H
  | H : lift _ _ = Some _ |- _ =>
    apply lift_Some in H;
    let H1 := fresh "Hl" in destruct H as (H1 & ? & ?); subst
  | H : item _ _ _ = Some _ |- _ => unfold item in H
  | H : (if ?b then _ else _) _ = Some _ |- _ => destruct b eqn:?
  end.
Ltac minv := repeat minv_step.

Ltac bool_facts :=
  repeat match goal with
  | E : negb _ = true |- _ => apply negb_true_iff in E
  | E : negb _ = false |- _ => apply negb_false_iff in E
  | E : _ && _ = true |- _ => apply andb_true_iff in E; destruct E
  end.

(** The effect of a handler on what the claims observe: the scroll
    handler's clock and the scroll commands ([quiet]), the mouse button
    ([buttoned]). *)
Lemma release_drag_effect (g g' : t) (cmds : list command) :
  release_drag g = Some (tt, g', cmds) ->
  scroll_handler g' = scroll_handler g
  /\ count_scroll cmds = 0%nat
  /\ drag_protocol (drag_active g) cmds = Some (drag_active g').
Proof.
  rewrite release_drag_run. intros H.
  destruct (drag_active g) eqn:E; inversion H; subst; cbn; rewrite ?E; auto.
Qed.

Lemma handle_movement_effect (d : HandDetector.t) (clk : Clock)
    (x1 y1 : Z) (fingers : Fingers) (g g' : t) (cmds : list command) :
  _handle_movement d clk x1 y1 fingers g = Some (tt, g', cmds) ->
  scroll_handler g' = scroll_handler g
  /\ count_scroll cmds = 0%nat
  /\ drag_protocol (drag_active g) cmds = Some (drag_active g').
Proof.
  intros H. unfold _handle_movement, release_drag in H. minv.
  all: bool_facts; cbn in *.
  all: repeat match goal with E : _ = _ |- _ => rewrite E end; auto.
Qed.

Lemma left_click_effect (d : HandDetector.t) (fingers : Fingers)
    (g g' : t) (cmds : list command) :
  _handle_left_click d fingers g = Some (tt, g', cmds) ->
  g' = g /\ (cmds = [] \/ cmds = [Click]).
Proof.
  intros H. unfold _handle_left_click in H. minv; auto.
Qed.

Lemma right_click_effect (d : HandDetector.t) (fingers : Fingers)
    (g g' : t) (cmds : list command) :
  _handle_right_click d fingers g = Some (tt, g', cmds) ->
  g' = g /\ (cmds = [] \/ cmds = [RightClick]).
Proof.
  intros H. unfold _handle_right_click in H. minv; auto.
Qed.

Lemma handle_scroll_effect (clk : Clock) (wrist_y : Z) (g g' : t)
    (cmds : list command) :
  _handle_scroll clk wrist_y g = Some (tt, g', cmds) ->
  drag_active g' = drag_active g
  /\ (history_bounded (scroll_handler g) ->
      history_bounded (scroll_handler g'))
  /\ ((cmds = []
       /\ ScrollHandler.last_scroll_time (scroll_handler g')
          = ScrollHandler.last_scroll_time (scroll_handler g))
      \/
      (exists n, cmds = [Scroll n])
       /\ ScrollHandler.last_scroll_time (scroll_handler g')
          = time_second clk
       /\ (SCROLL_DELAY
           < time_first clk
             - ScrollHandler.last_scroll_time (scroll_handler g))%Q
       /\ (1 # 2
           < Qabs (ScrollHandler.get_progressive_speed
                     (inject_Z wrist_y)))%Q).
Proof.
  intros H. unfold _handle_scroll in H. minv.
  all: repeat match goal with
       | r : (ScrollHandler.t * Q)%type |- _ => destruct r
       | E : ScrollHandler.should_scroll _ _ _ = true |- _ =>
         unfold ScrollHandler.should_scroll in E
       end.
  all: q_orders; cbn in *.
  - split; [reflexivity|]. split.
    + intros Hb.
      apply (do_call_bounded t0 _ (UpdateScrollTime (time_second clk)));
        [|reflexivity].
      eapply smooth_scroll_bounded; [|exact Hl].
      now apply (do_call_bounded (scroll_handler g0) _ ActivateScrollMode).
    + right. split; [eexists; reflexivity|]. auto.
  - split; [reflexivity|]. split.
    + intros Hb.
      apply (do_call_bounded t0 _ (UpdateScrollTime (time_second clk)));
        [|reflexivity].
      eapply smooth_scroll_bounded; [exact Hb | exact Hl].
    + right. split; [eexists; reflexivity|]. auto.
  - split; [reflexivity|]. split.
    + intros Hb.
      now apply (do_call_bounded (scroll_handler g0) _ ActivateScrollMode).
    + left. split; reflexivity.
  - split; [reflexivity|]. split; [auto|].
    left. split; reflexivity.
Qed.

Lemma drag_protocol_quiet_suffix (c k : list command) (held : bool) :
  forallb (fun x => negb (is_toggle x)) k = true ->
  drag_protocol held (c ++ k) = drag_protocol held c.
Proof.
  intros Hk. revert held.
  induction c as [|x c IH]; intros held; cbn.
  - induction k as [|y k IHk]; [reflexivity|].
    cbn in Hk. apply andb_true_iff in Hk. destruct Hk as [Hy Hk].
    destruct y; try discriminate; cbn; auto.
  - destruct x; auto. destruct (Bool.eqb state held); auto.
Qed.

(** The branch of [process_frame] without the scroll gesture, after the
    effect lemmas of its handlers have been applied. *)
Ltac after_move :=
  cbn in *;
  match goal with Hsh : scroll_handler _ = _ |- _ => rewrite Hsh end;
  split;
  [ rewrite drag_protocol_quiet_suffix by reflexivity; assumption
  | split;
    [ intros Hb;
      apply (do_call_bounded _ _ DeactivateScrollMode Hb eq_refl)
    | left; split; [|reflexivity];
      rewrite count_scroll_app;
      match goal with Hc : count_scroll _ = 0%nat |- _ => rewrite Hc end;
      reflexivity ] ].

(** One frame, as the claims observe it: the button commands alternate,
    the history stays bounded, and a scroll command is sent at most once
    and only through the gate of [should_scroll]. *)
Lemma process_frame_effect (d : HandDetector.t) (clk : Clock)
    (l : list Landmark) (fingers : Fingers) (g g' : t)
    (cmds : list command) :
  process_frame d clk l fingers g = Some (tt, g', cmds) ->
  drag_protocol (drag_active g) cmds = Some (drag_active g')
  /\ (history_bounded (scroll_handler g) ->
      history_bounded (scroll_handler g'))
  /\ ((count_scroll cmds = 0%nat
       /\ ScrollHandler.last_scroll_time (scroll_handler g')
          = ScrollHandler.last_scroll_time (scroll_handler g))
      \/
      (count_scroll cmds = 1%nat
       /\ ScrollHandler.last_scroll_time (scroll_handler g')
          = time_second clk
       /\ (SCROLL_DELAY
           < time_first clk
             - ScrollHandler.last_scroll_time (scroll_handler g))%Q
       /\ exists wrist,
           nth_error l 0 = Some wrist
           /\ (1 # 2
               < Qabs (ScrollHandler.get_progressive_speed
                         (inject_Z (lm_y wrist))))%Q)).
Proof.
  intros H. destruct l as [|l0 l].
  - cbn [process_frame] in H.
    destruct (release_drag_effect _ _ _ H) as (Hs & Hc & Hp).
    rewrite Hs. auto.
  - unfold process_frame in H. minv.
    all: repeat match goal with u : unit |- _ => destruct u end.
    all: repeat match goal with
         | H : _handle_scroll _ _ _ = Some _ |- _ =>
           apply handle_scroll_effect in H;
           destruct H as (?Hact & ?Hbound & ?Hgate)
         | H : release_drag _ = Some _ |- _ =>
           apply release_drag_effect in H;
           destruct H as (?Hsh & ?Hcount & ?Hproto)
         | H : _handle_movement _ _ _ _ _ _ = Some _ |- _ =>
           apply handle_movement_effect in H;
           destruct H as (?Hsh & ?Hcount & ?Hproto)
         | H : _handle_left_click _ _ _ = Some _ |- _ =>
           apply left_click_effect in H; destruct H as (? & [?|?]); subst
         | H : _handle_right_click _ _ _ = Some _ |- _ =>
           apply right_click_effect in H; destruct H as (? & [?|?]); subst
         end.
    all: cbn [app].
    all: try after_move.
    rewrite Hsh, <- Hact. split; [|split; [exact Hbound|]].
    + destruct Hgate as [[Hc _]|[[n Hc] _]]; subst c; exact Hproto.
    + destruct Hgate as [[Hc Hlast]|[[n Hc] (Hlast & Hdelay & Hspeed)]];
        subst c; rewrite count_scroll_app, Hcount; [left|right];
        (split; [reflexivity|]); [exact Hlast|].
      split; [exact Hlast|]. split; [exact Hdelay|].
      exists a3. split; [exact Hl | exact Hspeed].
Qed.

(** ** Runs of the main loop *)

(** One iteration of the loop has the effect of its [process_frame]. *)
Lemma step_effect (g g' : t) (f : Main.Frame) (cmds : list command) :
  Main.step g f = Some (g', cmds) ->
  drag_protocol (drag_active g) cmds = Some (drag_active g')
  /\ (history_bounded (scroll_handler g) ->
      history_bounded (scroll_handler g'))
  /\ ((count_scroll cmds = 0%nat
       /\ ScrollHandler.last_scroll_time (scroll_handler g')
          = ScrollHandler.last_scroll_time (scroll_handler g))
      \/
      (count_scroll cmds = 1%nat
       /\ ScrollHandler.last_scroll_time (scroll_handler g')
          = time_second (Main.clock f)
       /\ (SCROLL_DELAY
           < time_first (Main.clock f)
             - ScrollHandler.last_scroll_time (scroll_handler g))%Q
       /\ exists wrist,
           nth_error (Main.landmarks f) 0 = Some wrist
           /\ (1 # 2
               < Qabs (ScrollHandler.get_progressive_speed
                         (inject_Z (lm_y wrist))))%Q)).
Proof.
  unfold Main.step, find_position. intros H.
  match type of H with
  | match ?p with _ => _ end = _ =>
    destruct p as [[[[] g1] c1]|] eqn:E; [|discriminate]
  end.
  inversion H; subst.
  exact (process_frame_effect _ _ _ _ _ _ _ E).
Qed.

(** Over any run the begin-drag and end-drag commands alternate, starting
    from the state of the button, and the scroll history stays within
    its window. *)
Lemma run_effect (fs : list Main.Frame) (g g' : t)
    (out : list (list command)) :
  Main.run g fs = Some (g', out) ->
  drag_protocol (drag_active g) (concat out) = Some (drag_active g')
  /\ (history_bounded (scroll_handler g) ->
      history_bounded (scroll_handler g')).
Proof.
  revert g out. induction fs as [|f fs IH]; intros g out H; cbn [Main.run] in H.
  - inversion H; subst. cbn. auto.
  - destruct (Main.step g f) as [[g1 cmds]|] eqn:E1; [|discriminate].
    destruct (Main.run g1 fs) as [[g2 rest]|] eqn:E2; [|discriminate].
    inversion H; subst.
    destruct (step_effect _ _ _ _ E1) as (Hp1 & Hb1 & _).
    destruct (IH _ _ E2) as [Hp2 Hb2].
    cbn [concat]. rewrite (drag_protocol_app _ _ _ _ Hp1). auto.
Qed.

(** From start-up the history of the scroll handler never holds more
    than three samples. *)
Lemma run_history_at_most_three (w h : Q) (fs : list Main.Frame) (g : t)
    (out : list (list command)) :
  Main.run (init w h) fs = Some (g, out) ->
  (length (ScrollHandler.scroll_history (scroll_handler g)) <= 3)%nat.
Proof.
  intros H. apply run_effect in H. destruct H as [_ Hb].
  apply Hb. apply init_bounded.
Qed.

(** ** Scroll gating *)

(** While the last scroll command is less than the minimum interval old
    for every frame of a run, the run sends no scroll command. *)
Lemma quiet_while_recent (fs : list Main.Frame) (g g' : t)
    (out : list (list command)) :
  Main.run g fs = Some (g', out) ->
  Forall (fun f =>
            (time_first (Main.clock f)
             < ScrollHandler.last_scroll_time (scroll_handler g)
               + SCROLL_DELAY)%Q) fs ->
  count_scroll (concat out) = 0%nat
  /\ ScrollHandler.last_scroll_time (scroll_handler g')
     = ScrollHandler.last_scroll_time (scroll_handler g).
Proof.
  revert g out. induction fs as [|f fs IH]; intros g out H Hw;
    cbn [Main.run] in H.
  - inversion H; subst. auto.
  - destruct (Main.step g f) as [[g1 cmds]|] eqn:E1; [|discriminate].
    destruct (Main.run g1 fs) as [[g2 rest]|] eqn:E2; [|discriminate].
    inversion H; subst. inversion Hw as [|? ? Hf Hfs]; subst.
    destruct (step_effect _ _ _ _ E1)
      as (_ & _ & [[Hc Hlast]|(_ & _ & Hdelay & _)]); [|exfalso; lra].
    rewrite <- Hlast in Hfs.
    destruct (IH _ _ E2 Hfs) as [Hc' Hlast'].
    cbn [concat]. rewrite count_scroll_app, Hc, Hc', Hlast', Hlast. auto.
Qed.

(** A run whose clock readings all lie in a window shorter than the
    minimum interval sends at most one scroll command. *)
Lemma one_scroll_per_window (start : Q) (fs : list Main.Frame) (g g' : t)
    (out : list (list command)) :
  Main.run g fs = Some (g', out) ->
  Forall (fun f =>
            (start <= time_first (Main.clock f))%Q
            /\ (time_first (Main.clock f) <= time_second (Main.clock f))%Q
            /\ (time_first (Main.clock f) < start + SCROLL_DELAY)%Q) fs ->
  (count_scroll (concat out) <= 1)%nat.
Proof.
  revert g out. induction fs as [|f fs IH]; intros g out H Hw;
    cbn [Main.run] in H.
  - inversion H; subst. cbn. lia.
  - destruct (Main.step g f) as [[g1 cmds]|] eqn:E1; [|discriminate].
    destruct (Main.run g1 fs) as [[g2 rest]|] eqn:E2; [|discriminate].
    inversion H; subst. inversion Hw as [|? ? (Hlo & Hmono & Hhi) Hfs]; subst.
    cbn [concat]. rewrite count_scroll_app.
    destruct (step_effect _ _ _ _ E1)
      as (_ & _ & [[Hc _]|(Hc & Hlast & _)]).
    + rewrite Hc. exact (IH _ _ E2 Hfs).
    + assert (Hq : count_scroll (concat rest) = 0%nat).
      { eapply quiet_while_recent; [exact E2|].
        rewrite Hlast.
        eapply Forall_impl; [|exact Hfs].
        cbn beta. intros f' (_ & _ & Hhi'). lra. }
      lia.
Qed.

(** C5 (as the claim states it, refuted).  With the wrist on row 289 and,
    one second later, on row 191, both frames send a scroll command; in
    the second the raw speed has magnitude above [0.5] but the smoothed
    speed, the mean of the two samples, is [15/36864], far below it. *)
Lemma C5_counterexample :
  exists g1 g2 s' smoothed,
    Main.run (init 1920 1080) Sample.scroll_across
    = Some (g2, [[Scroll 75]; [Scroll 0]])
    /\ Main.run (init 1920 1080) (firstn 1 Sample.scroll_across)
       = Some (g1, [[Scroll 75]])
    /\ ScrollHandler.smooth_scroll (scroll_handler g1)
         (ScrollHandler.get_progressive_speed 191)
       = Some (s', smoothed)
    /\ scroll_handler g2 = ScrollHandler.update_scroll_time s' 1001
    /\ (smoothed == 15 # 36864)%Q
    /\ (Qabs smoothed <= 1 # 2)%Q
    /\ (1 # 2 < Qabs (ScrollHandler.get_progressive_speed 191))%Q.
Proof.
  eexists _, _, _, _.
  split; [vm_compute; reflexivity|].
  split; [vm_compute; reflexivity|].
  split; [vm_compute; reflexivity|].
  split; [reflexivity|].
  split; [reflexivity|].
  split; [vm_compute; discriminate | reflexivity].
Qed.

(** C5 (amended).  A frame sends a scroll command only if (a) more than
    the minimum interval of 0.02 s has passed since the last scroll
    command was sent and (b) the magnitude of the raw speed of that frame,
    computed from the wrist row, exceeds 0.5 (the smoothed speed is
    computed afterwards and is not tested).  Consequently the frames of a
    run whose clock readings all lie within less than the minimum interval
    of one another send at most one scroll command. *)
Theorem C5_scroll_gate_on_raw_speed (start : Q) (f : Main.Frame)
    (fs : list Main.Frame) (g g' : t) (cmds : list command)
    (rest : list (list command))
    (Hrun : Main.run g (f :: fs) = Some (g', cmds :: rest))
    (Hwindow :
       Forall (fun f =>
                 (start <= time_first (Main.clock f))%Q
                 /\ (time_first (Main.clock f)
                     <= time_second (Main.clock f))%Q
                 /\ (time_first (Main.clock f) < start + SCROLL_DELAY)%Q)
              (f :: fs)) :
  (count_scroll cmds = 0%nat
   \/ (count_scroll cmds = 1%nat
       /\ (SCROLL_DELAY
           < time_first (Main.clock f)
             - ScrollHandler.last_scroll_time (scroll_handler g))%Q
       /\ exists wrist,
           nth_error (Main.landmarks f) 0 = Some wrist
           /\ (1 # 2
               < Qabs (ScrollHandler.get_progressive_speed
                         (inject_Z (lm_y wrist))))%Q))
  /\ (count_scroll (concat (cmds :: rest)) <= 1)%nat.
Proof.
  split; [|exact (one_scroll_per_window start _ _ _ _ Hrun Hwindow)].
  cbn [Main.run] in Hrun.
  destruct (Main.step g f) as [[g1 cmds1]|] eqn:E1; [|discriminate].
  destruct (Main.run g1 fs) as [[g2 rest2]|] eqn:E2; [|discriminate].
  inversion Hrun; subst.
  destruct (step_effect _ _ _ _ E1)
    as (_ & _ & [[Hc _]|(Hc & _ & Hdelay & Hspeed)]); [left|right]; auto.
Qed.

Lemma C5_scroll_gate_on_raw_speed_witness :
  (count_scroll [Scroll 75] = 0%nat
   \/ (count_scroll [Scroll 75] = 1%nat
       /\ (SCROLL_DELAY
           < time_first (Main.clock (Main.FR (Sample.scroll_hand 289)
                                       (Sample.at_time 1000)))
             - ScrollHandler.last_scroll_time
                 (scroll_handler (init 1920 1080)))%Q
       /\ exists wrist,
           nth_error (Main.landmarks (Main.FR (Sample.scroll_hand 289)
                                        (Sample.at_time 1000))) 0
           = Some wrist
           /\ (1 # 2
               < Qabs (ScrollHandler.get_progressive_speed
                         (inject_Z (lm_y wrist))))%Q))
  /\ (count_scroll (concat [[Scroll 75]; []; []]) <= 1)%nat.
Proof.
  eapply (C5_scroll_gate_on_raw_speed 1000
            (Main.FR (Sample.scroll_hand 289) (Sample.at_time 1000))
            [ Main.FR (Sample.scroll_hand 300)
                (Sample.at_time (100001 # 100));
              Main.FR (Sample.scroll_hand 310)
                (CLK (1000015 # 1000) (1000016 # 1000)) ]
            (init 1920 1080)).
  - vm_compute. reflexivity.
  - repeat constructor; vm_compute; congruence.
Defined.

(** ** Confirming a drag *)

(** A begin-drag command is sent only by a frame that finds the timer
    started by an earlier frame, more than 0.3 s before its own clock
    reading; nothing is required of the frames in between. *)
Lemma begin_drag_needs_old_timer (d : HandDetector.t) (clk : Clock)
    (l : list Landmark) (fingers : Fingers) (g g' : t)
    (cmds : list command) :
  process_frame d clk l fingers g = Some (tt, g', cmds) ->
  In (ToggleDrag true) cmds ->
  drag_mode g = true
  /\ drag_active g = false
  /\ (DRAG_CLICK_THRESHOLD < time_first clk - drag_start_time g)%Q.
Proof.
  intros H Hin. destruct l as [|l0 l].
  - cbn [process_frame] in H. rewrite release_drag_run in H.
    destruct (drag_active g); inversion H; subst; cbn in Hin;
      intuition discriminate.
  - unfold process_frame, _handle_scroll, _handle_movement,
      _handle_left_click, _handle_right_click, release_drag in H.
    minv.
    all: bool_facts; q_orders; cbn in *.
    all: try (intuition discriminate).
    all: auto.
Qed.

(** C4 (the code departs from the claim).  A pinch is seen at 1000.0 s;
    at 1000.1 s it is released (or the hand is lost); at 1001.0 s the
    pinch is seen again.  The third frame sends the begin-drag command
    although the pinch it sees has been engaged for 0 s: the timer
    started by the first frame was not reset by the second. *)
Theorem C4_begin_drag_on_stale_timer :
  option_map (fun r => drag_commands (snd r))
    (Main.run (init 1920 1080) Sample.broken_pinch)
  = Some [[]; []; [ToggleDrag true]]
  /\ hold_durations None Sample.broken_pinch = [Some 0%Q; None; Some 0%Q]
  /\ option_map (fun r => drag_commands (snd r))
       (Main.run (init 1920 1080) Sample.lost_hand_pinch)
     = Some [[]; []; [ToggleDrag true]]
  /\ hold_durations None Sample.lost_hand_pinch
     = [Some 0%Q; None; Some 0%Q].
Proof.
  repeat split; vm_compute; reflexivity.
Qed.

(** * Further properties of the code *)

(** ** Clicks *)

(** Full case analysis of a frame that returned. *)
Ltac frame_cases H :=
  unfold process_frame, _handle_scroll, _handle_movement,
    _handle_left_click, _handle_right_click, release_drag in H;
  minv; bool_facts; q_orders;
  repeat match goal with u : unit |- _ => destruct u end.

(** X1.  No frame sends both a left click and a right click: the left
    click needs the middle finger up, the right click needs it down. *)
Theorem X1_never_both_clicks (d : HandDetector.t) (clk : Clock)
    (l : list Landmark) (fingers : Fingers) (g g' : t)
    (cmds : list command)
    (Hframe : process_frame d clk l fingers g = Some (tt, g', cmds)) :
  ~ (In Click cmds /\ In RightClick cmds).
Proof.
  intros [Hl Hr]. destruct l as [|l0 l].
  - cbn [process_frame] in Hframe. rewrite release_drag_run in Hframe.
    destruct (drag_active g); inversion Hframe; subst; cbn in Hl;
      intuition discriminate.
  - frame_cases Hframe.
    all: cbn in Hl, Hr.
    all: try (intuition discriminate).
    all: repeat match goal with
         | E : (_ =? _) = true |- _ => apply Z.eqb_eq in E
         end; lia.
Qed.

Lemma X1_never_both_clicks_witness :
  exists g' cmds,
    process_frame {| lm_list := Some Sample.right_click_hand |}
      (CLK 1000 1000) Sample.right_click_hand (FV 1 1 0 0 0)
      (init 1920 1080)
    = Some (tt, g', cmds)
    /\ ~ (In Click cmds /\ In RightClick cmds).
Proof.
  eexists _, _. split; [vm_compute; reflexivity|].
  eapply (X1_never_both_clicks
            {| lm_list := Some Sample.right_click_hand |} (CLK 1000 1000)
            Sample.right_click_hand (FV 1 1 0 0 0) (init 1920 1080)).
  vm_compute. reflexivity.
Defined.

(** X2.  A frame that ends with the drag confirmed sends no click: neither
    the frame that confirms the drag nor any frame while the button is
    held clicks. *)
Theorem X2_no_click_while_dragging (d : HandDetector.t) (clk : Clock)
    (l : list Landmark) (fingers : Fingers) (g g' : t)
    (cmds : list command)
    (Hframe : process_frame d clk l fingers g = Some (tt, g', cmds))
    (Hheld : drag_active g' = true) :
  existsb is_click cmds = false.
Proof.
  destruct l as [|l0 l].
  - cbn [process_frame] in Hframe. rewrite release_drag_run in Hframe.
    destruct (drag_active g); inversion Hframe; subst; reflexivity.
  - frame_cases Hframe.
    all: cbn in *; try reflexivity; congruence.
Qed.

Lemma X2_no_click_while_dragging_witness :
  exists g' cmds,
    process_frame {| lm_list := Some Sample.right_click_hand |}
      (CLK 1001 1001) Sample.right_click_hand (FV 1 1 0 0 0)
      (set_drag_start_time 1000 (set_drag_mode true (init 1920 1080)))
    = Some (tt, g', cmds)
    /\ In (ToggleDrag true) cmds
    /\ existsb is_click cmds = false.
Proof.
  eexists _, _. split; [vm_compute; reflexivity|].
  split; [right; left; reflexivity|].
  eapply (X2_no_click_while_dragging
            {| lm_list := Some Sample.right_click_hand |} (CLK 1001 1001)
            Sample.right_click_hand (FV 1 1 0 0 0)
            (set_drag_start_time 1000 (set_drag_mode true (init 1920 1080)))).
  - vm_compute. reflexivity.
  - reflexivity.
Defined.

(** ** The drag state machine *)

(** X3.  A frame sends the begin-drag command only when the hold timer was
    already running before the frame, more than 0.3 s have passed since it
    was started, no drag is confirmed yet, and the frame itself shows
    thumb and index up, no scroll gesture, and the thumb tip within the
    pinch threshold of the index tip.  It sends it once. *)
Theorem X3_begin_drag_conditions (d : HandDetector.t) (clk : Clock)
    (l : list Landmark) (fingers : Fingers) (g g' : t)
    (cmds : list command)
    (Hframe : process_frame d clk l fingers g = Some (tt, g', cmds))
    (Hbegin : In (ToggleDrag true) cmds) :
  drag_mode g = true
  /\ drag_active g = false
  /\ (DRAG_CLICK_THRESHOLD < time_first clk - drag_start_time g)%Q
  /\ thumb fingers = 1 /\ index fingers = 1
  /\ scroll_gesture fingers = false
  /\ (exists len info,
        find_distance d 4 8 = Some (len, info)
        /\ length_ltb len PINCH_DISTANCE_THRESHOLD = true)
  /\ filter is_toggle cmds = [ToggleDrag true]
  /\ drag_active g' = true.
Proof.
  destruct l as [|l0 l].
  - cbn [process_frame] in Hframe. rewrite release_drag_run in Hframe.
    destruct (drag_active g); inversion Hframe; subst; cbn in Hbegin;
      intuition discriminate.
  - unfold scroll_gesture. frame_cases Hframe.
    all: cbn in Hbegin; try (exfalso; intuition discriminate).
    all: repeat match goal with
         | E : (_ =? _) = true |- _ => apply Z.eqb_eq in E
         | p : (Length * list Z)%type |- _ => destruct p
         end.
    all: cbn in *; repeat split; eauto.
Qed.

Lemma X3_begin_drag_conditions_witness :
  exists g' cmds,
    process_frame {| lm_list := Some Sample.pinch_hand |}
      (CLK 1001 1001) Sample.pinch_hand (FV 1 1 1 0 0)
      (set_drag_start_time 1000 (set_drag_mode true (init 1920 1080)))
    = Some (tt, g', cmds)
    /\ filter is_toggle cmds = [ToggleDrag true]
    /\ drag_active g' = true.
Proof.
  eexists _, _. split; [vm_compute; reflexivity|].
  eapply (X3_begin_drag_conditions
            {| lm_list := Some Sample.pinch_hand |} (CLK 1001 1001)
            Sample.pinch_hand (FV 1 1 1 0 0)
            (set_drag_start_time 1000 (set_drag_mode true (init 1920 1080)))).
  - vm_compute. reflexivity.
  - vm_compute. right. left. reflexivity.
Defined.

(** X4.  Once a drag is confirmed, a frame either keeps it, sending no
    drag command, which happens only when a hand is seen without the
    scroll gesture, thumb and index are up and the thumb tip is within the
    pinch threshold of the index tip; or it ends the drag: it sends the
    end-drag command exactly once and the state machine is idle again. *)
Theorem X4_confirmed_drag_ends_when_pinch_ends (d : HandDetector.t)
    (clk : Clock) (l : list Landmark) (fingers : Fingers) (g g' : t)
    (cmds : list command)
    (Hframe : process_frame d clk l fingers g = Some (tt, g', cmds))
    (Hheld : drag_active g = true) :
  (drag_active g' = true
   /\ filter is_toggle cmds = []
   /\ l <> []
   /\ scroll_gesture fingers = false
   /\ thumb fingers = 1 /\ index fingers = 1
   /\ exists len info,
        find_distance d 4 8 = Some (len, info)
        /\ length_ltb len PINCH_DISTANCE_THRESHOLD = true)
  \/ (drag_active g' = false
      /\ drag_mode g' = false
      /\ filter is_toggle cmds = [ToggleDrag false]).
Proof.
  destruct l as [|l0 l].
  - cbn [process_frame] in Hframe. rewrite release_drag_run, Hheld in Hframe.
    inversion Hframe; subst. right. repeat split.
  - unfold scroll_gesture. frame_cases Hframe.
    all: repeat match goal with
         | E : (_ =? _) = true |- _ => apply Z.eqb_eq in E
         | p : (Length * list Z)%type |- _ => destruct p
         end.
    all: cbn in *; try congruence.
    all: try (right; repeat split; reflexivity).
    all: left; repeat split; eauto; congruence.
Qed.

Lemma X4_confirmed_drag_ends_when_pinch_ends_witness :
  exists g' cmds,
    process_frame {| lm_list := Some Sample.open_hand |}
      (CLK 1001 1001) Sample.open_hand (FV 1 1 1 0 0)
      (set_drag_active true (set_drag_mode true (init 1920 1080)))
    = Some (tt, g', cmds)
    /\ ((drag_active g' = true
         /\ filter is_toggle cmds = []
         /\ Sample.open_hand <> []
         /\ scroll_gesture (FV 1 1 1 0 0) = false
         /\ thumb (FV 1 1 1 0 0) = 1 /\ index (FV 1 1 1 0 0) = 1
         /\ exists len info,
              find_distance {| lm_list := Some Sample.open_hand |} 4 8
              = Some (len, info)
              /\ length_ltb len PINCH_DISTANCE_THRESHOLD = true)
        \/ (drag_active g' = false
            /\ drag_mode g' = false
            /\ filter is_toggle cmds = [ToggleDrag false])).
Proof.
  eexists _, _. split; [vm_compute; reflexivity|].
  eapply (X4_confirmed_drag_ends_when_pinch_ends
            {| lm_list := Some Sample.open_hand |} (CLK 1001 1001)
            Sample.open_hand (FV 1 1 1 0 0)
            (set_drag_active true (set_drag_mode true (init 1920 1080)))).
  - vm_compute. reflexivity.
  - reflexivity.
Defined.

(** ** Gesture modes *)

(** [smooth_scroll] changes the history only. *)
Lemma smooth_scroll_frame (s s' : ScrollHandler.t) (x m : Q) :
  ScrollHandler.smooth_scroll s x = Some (s', m) ->
  ScrollHandler.scroll_mode s' = ScrollHandler.scroll_mode s
  /\ ScrollHandler.last_scroll_time s' = ScrollHandler.last_scroll_time s
  /\ ScrollHandler.history_length s' = ScrollHandler.history_length s.
Proof.
  unfold ScrollHandler.smooth_scroll. intros H.
  match type of H with
  | match ?h with _ => _ end = _ => destruct h; [discriminate|]
  end.
  inversion H; subst. repeat split.
Qed.

(** X5.  A frame with a hand showing the scroll gesture leaves scroll mode
    on and the drag idle, does not move the cursor, and sends nothing but
    scroll commands and the end-drag command. *)
Theorem X5_scroll_gesture_frame (d : HandDetector.t) (clk : Clock)
    (l : list Landmark) (fingers : Fingers) (g g' : t)
    (cmds : list command)
    (Hframe : process_frame d clk l fingers g = Some (tt, g', cmds))
    (Hhand : l <> [])
    (Hgesture : scroll_gesture fingers = true) :
  ScrollHandler.scroll_mode (scroll_handler g') = true
  /\ drag_active g' = false
  /\ ploc_x g' = ploc_x g /\ ploc_y g' = ploc_y g
  /\ forallb (fun c =>
                match c with
                | Scroll _ | ToggleDrag false => true
                | _ => false
                end) cmds = true.
Proof.
  destruct l as [|l0 l]; [congruence|].
  unfold scroll_gesture in Hgesture. frame_cases Hframe.
  all: try congruence.
  all: cbn in *; repeat split; try reflexivity; try assumption.
  all: match goal with
       | E : ScrollHandler.smooth_scroll _ _ = Some ?p |- _ =>
         destruct p as [s1 m1]; apply smooth_scroll_frame in E;
         destruct E as (E & _); cbn in *; rewrite E; reflexivity || assumption
       end.
Qed.

Lemma X5_scroll_gesture_frame_witness :
  exists g' cmds,
    process_frame {| lm_list := Some (Sample.scroll_hand 400) |}
      (CLK 1000 1000) (Sample.scroll_hand 400) (FV 0 0 0 1 1)
      (set_drag_active true (set_drag_mode true (init 1920 1080)))
    = Some (tt, g', cmds)
    /\ ScrollHandler.scroll_mode (scroll_handler g') = true
    /\ drag_active g' = false
    /\ ploc_x g'
       = ploc_x (set_drag_active true (set_drag_mode true (init 1920 1080)))
    /\ ploc_y g'
       = ploc_y (set_drag_active true (set_drag_mode true (init 1920 1080)))
    /\ forallb (fun c =>
                  match c with
                  | Scroll _ | ToggleDrag false => true
                  | _ => false
                  end) cmds = true.
Proof.
  eexists _, _. split; [vm_compute; reflexivity|].
  eapply (X5_scroll_gesture_frame
            {| lm_list := Some (Sample.scroll_hand 400) |}
            (CLK 1000 1000) (Sample.scroll_hand 400) (FV 0 0 0 1 1)
            (set_drag_active true (set_drag_mode true (init 1920 1080)))).
  - vm_compute. reflexivity.
  - discriminate.
  - reflexivity.
Defined.

(** X6.  A frame with a hand showing any other gesture leaves scroll mode
    off, sends no scroll command and leaves the scroll history and the time
    of the last scroll as they were. *)
Theorem X6_other_gesture_leaves_scroll_mode (d : HandDetector.t)
    (clk : Clock) (l : list Landmark) (fingers : Fingers) (g g' : t)
    (cmds : list command)
    (Hframe : process_frame d clk l fingers g = Some (tt, g', cmds))
    (Hhand : l <> [])
    (Hgesture : scroll_gesture fingers = false) :
  scroll_handler g'
  = ScrollHandler.deactivate_scroll_mode (scroll_handler g)
  /\ count_scroll cmds = 0%nat.
Proof.
  destruct l as [|l0 l]; [congruence|].
  unfold scroll_gesture in Hgesture. frame_cases Hframe.
  all: try congruence.
  all: cbn; split; reflexivity.
Qed.

Lemma X6_other_gesture_leaves_scroll_mode_witness :
  exists g' cmds,
    process_frame {| lm_list := Some Sample.open_hand |}
      (CLK 1000 1000) Sample.open_hand (FV 1 1 1 0 0)
      (set_scroll_handler
         (ScrollHandler.activate_scroll_mode ScrollHandler.init)
         (init 1920 1080))
    = Some (tt, g', cmds)
    /\ scroll_handler g'
       = ScrollHandler.deactivate_scroll_mode
           (scroll_handler
              (set_scroll_handler
                 (ScrollHandler.activate_scroll_mode ScrollHandler.init)
                 (init 1920 1080)))
    /\ count_scroll cmds = 0%nat.
Proof.
  eexists _, _. split; [vm_compute; reflexivity|].
  eapply (X6_other_gesture_leaves_scroll_mode
            {| lm_list := Some Sample.open_hand |}
            (CLK 1000 1000) Sample.open_hand (FV 1 1 1 0 0)
            (set_scroll_handler
               (ScrollHandler.activate_scroll_mode ScrollHandler.init)
               (init 1920 1080))).
  - vm_compute. reflexivity.
  - discriminate.
  - reflexivity.
Defined.

(** X7.  A frame without a hand does not touch the scroll handler: scroll
    mode stays as it was, and so do the history and the cursor; only a
    confirmed drag is ended. *)
Theorem X7_lost_hand_keeps_scroll_mode (d : HandDetector.t) (clk : Clock)
    (fingers : Fingers) (g : t) :
  exists g' cmds,
    process_frame d clk [] fingers g = Some (tt, g', cmds)
    /\ scroll_handler g' = scroll_handler g
    /\ ploc_x g' = ploc_x g /\ ploc_y g' = ploc_y g
    /\ drag_active g' = false
    /\ count_scroll cmds = 0%nat
    /\ existsb is_click cmds = false
    /\ existsb is_move cmds = false
    /\ (drag_active g = true \/ (g' = g /\ cmds = [])).
Proof.
  cbn [process_frame]. rewrite release_drag_run.
  destruct (drag_active g) eqn:E; eexists _, _; (split; [reflexivity|]);
    cbn; repeat split; auto.
Qed.

(** X9.  While the wrist is inside the neutral zone (rows 192 to 288,
    edges included) a frame sends no scroll command, whatever the history
    and the gesture. *)
Theorem X9_neutral_zone_never_scrolls (d : HandDetector.t) (clk : Clock)
    (l : list Landmark) (fingers : Fingers) (g g' : t)
    (cmds : list command) (wrist : Landmark)
    (Hframe : process_frame d clk l fingers g = Some (tt, g', cmds))
    (Hwrist : nth_error l 0 = Some wrist)
    (Hzone : ScrollHandler.neutral_top <= lm_y wrist
             <= ScrollHandler.neutral_bottom) :
  count_scroll cmds = 0%nat.
Proof.
  destruct (process_frame_effect _ _ _ _ _ _ _ Hframe)
    as (_ & _ & [[Hc _]|(_ & _ & _ & w & Hw & Hspeed)]); [exact Hc|].
  rewrite Hwrist in Hw. inversion Hw; subst w.
  rewrite speed_inside in Hspeed.
  - vm_compute in Hspeed. discriminate.
  - change 192%Q with (inject_Z 192). rewrite <- Zle_Qle. apply Hzone.
  - change 288%Q with (inject_Z 288). rewrite <- Zle_Qle. apply Hzone.
Qed.

Lemma X9_neutral_zone_never_scrolls_witness :
  exists g' cmds,
    process_frame {| lm_list := Some (Sample.scroll_hand 240) |}
      (CLK 1000 1000) (Sample.scroll_hand 240) (FV 0 0 0 1 1)
      (init 1920 1080)
    = Some (tt, g', cmds)
    /\ count_scroll cmds = 0%nat.
Proof.
  eexists _, _. split; [vm_compute; reflexivity|].
  eapply (X9_neutral_zone_never_scrolls
            {| lm_list := Some (Sample.scroll_hand 240) |}
            (CLK 1000 1000) (Sample.scroll_hand 240) (FV 0 0 0 1 1)
            (init 1920 1080) _ _ (LM 0 320 240)).
  - vm_compute. reflexivity.
  - reflexivity.
  - vm_compute. split; discriminate.
Defined.

(** ** Exceptions *)

Lemma find_distance_returns (d : HandDetector.t) (p1 p2 : nat) :
  exists r, find_distance d p1 p2 = Some r.
Proof.
  unfold find_distance. destruct (lm_list d) as [l|]; [|eauto].
  destruct (length l <? Nat.max p1 p2 + 1)%nat eqn:E; [eauto|].
  apply Nat.ltb_ge in E.
  destruct (nth_error_in_range l p1) as [a Ha]; [lia|].
  destruct (nth_error_in_range l p2) as [b Hb]; [lia|].
  rewrite Ha, Hb. eauto.
Qed.

Lemma smooth_scroll_returns (s : ScrollHandler.t) (x : Q) :
  ScrollHandler.history_length s <> 0%nat ->
  exists r, ScrollHandler.smooth_scroll s x = Some r.
Proof.
  intros Hw. unfold ScrollHandler.smooth_scroll.
  destruct (ScrollHandler.scroll_history s) as [|a h]; cbn [app length].
  - destruct (ScrollHandler.history_length s) as [|n]; [congruence|].
    cbn. eauto.
  - destruct (ScrollHandler.history_length s <? S (length (h ++ [x])))%nat.
    + cbn [tl]. destruct (h ++ [x]) eqn:E; [|eauto].
      destruct h; discriminate.
    + eauto.
Qed.

(** Evaluates an unfolded computation by cases on its tests. *)
Ltac run_cases :=
  repeat (frame_simpl;
          match goal with
          | |- context [if ?b then _ else _] => destruct b eqn:?
          end);
  frame_simpl.

(** X8.  With a window of at least one sample, [process_frame] raises
    exactly on a partial hand: a landmark list that is not empty and has
    fewer than 21 entries ([IndexError]).  On an empty list and on a full
    hand it returns. *)
Theorem X8_raises_only_on_partial_hand (d : HandDetector.t) (clk : Clock)
    (l : list Landmark) (fingers : Fingers) (g : t)
    (Hwindow : ScrollHandler.history_length (scroll_handler g) <> 0%nat) :
  process_frame d clk l fingers g = None <-> (0 < length l < 21)%nat.
Proof.
  split.
  - intros Hnone.
    destruct l as [|l0 l]; [cbn [process_frame] in Hnone;
                            rewrite release_drag_run in Hnone; discriminate|].
    split; [cbn; lia|].
    destruct (Nat.lt_ge_cases (length (l0 :: l)) 21) as [Hlt|Hge];
      [exact Hlt|exfalso].
    destruct (nth_error_in_range (l0 :: l) 8) as [i8 E8]; [lia|].
    destruct (nth_error_in_range (l0 :: l) 12) as [i12 E12]; [lia|].
    destruct (nth_error_in_range (l0 :: l) 4) as [i4 E4]; [lia|].
    destruct (nth_error_in_range (l0 :: l) 20) as [i20 E20]; [lia|].
    destruct (nth_error_in_range (l0 :: l) 0) as [i0 E0]; [lia|].
    destruct (find_distance_returns d 4 8) as [[len1 info1] D1].
    destruct (find_distance_returns d 8 12) as [[len2 info2] D2].
    destruct (smooth_scroll_returns (scroll_handler g)
                (ScrollHandler.get_progressive_speed (inject_Z (lm_y i0)))
                Hwindow) as [[s1 m1] S1].
    destruct (smooth_scroll_returns
                (ScrollHandler.activate_scroll_mode (scroll_handler g))
                (ScrollHandler.get_progressive_speed (inject_Z (lm_y i0)))
                Hwindow) as [[s2 m2] S2].
    revert Hnone. unfold_frame.
    rewrite E8, E12, E4, E20, E0, D1, D2.
    run_cases; rewrite ?S1, ?S2; run_cases; discriminate.
  - intros [Hpos Hlt].
    destruct l as [|l0 l]; [cbn in Hpos; lia|].
    assert (E20 : nth_error (l0 :: l) 20 = None)
      by (apply nth_error_None; lia).
    unfold process_frame, item, bind, lift.
    destruct (nth_error (l0 :: l) 8); [|reflexivity].
    destruct (nth_error (l0 :: l) 12); [|reflexivity].
    destruct (nth_error (l0 :: l) 4); [|reflexivity].
    rewrite E20. reflexivity.
Qed.

Lemma X8_raises_only_on_partial_hand_witness :
  process_frame {| lm_list := Some (firstn 9 Sample.pinch_hand) |}
    (CLK 1000 1000) (firstn 9 Sample.pinch_hand) (FV 0 0 0 0 0)
    (init 1920 1080) = None
  <-> (0 < length (firstn 9 Sample.pinch_hand) < 21)%nat.
Proof.
  apply (X8_raises_only_on_partial_hand
           {| lm_list := Some (firstn 9 Sample.pinch_hand) |}
           (CLK 1000 1000) (firstn 9 Sample.pinch_hand) (FV 0 0 0 0 0)
           (init 1920 1080)).
  vm_compute. discriminate.
Defined.

(** ** Finger states *)

Lemma flag_or_zero_flag (test : Landmark -> Landmark -> bool)
    (a b : option Landmark) :
  is_flag (flag_or_zero test a b).
Proof.
  unfold flag_or_zero, is_flag.
  destruct a as [a|], b as [b|]; auto. destruct (test a b); auto.
Qed.

Lemma fingers_up_flags (d : HandDetector.t) :
  is_flag (thumb (fingers_up d)) /\ is_flag (index (fingers_up d))
  /\ is_flag (middle (fingers_up d)) /\ is_flag (ring (fingers_up d))
  /\ is_flag (pinky (fingers_up d)).
Proof.
  unfold fingers_up. destruct (lm_list d) as [l|].
  - destruct (length l <? 21)%nat.
    + cbn. unfold is_flag. auto 10.
    + cbn [thumb index middle ring pinky].
      repeat split; apply flag_or_zero_flag.
  - cbn. unfold is_flag. auto 10.
Qed.

(** X10.  [fingers_up] returns five flags, each 0 or 1.  They are all 0
    when the detector has no landmark list yet or holds fewer than 21
    landmarks; in particular a flag is 1 only for a full hand. *)
Theorem X10_fingers_up_flags (d : HandDetector.t) :
  let f := fingers_up d in
  (is_flag (thumb f) /\ is_flag (index f) /\ is_flag (middle f)
   /\ is_flag (ring f) /\ is_flag (pinky f))
  /\ (f = FV 0 0 0 0 0
      \/ exists l, lm_list d = Some l /\ (21 <= length l)%nat).
Proof.
  cbv zeta. split; [apply fingers_up_flags|].
  unfold fingers_up. destruct (lm_list d) as [l|]; [|auto].
  destruct (length l <? 21)%nat eqn:E; [auto|].
  apply Nat.ltb_ge in E. right. eauto.
Qed.


(** ** The cursor *)

(** What a frame does to the cursor: either it leaves it and sends no
    [move], or it is a move frame and sends exactly one [move], to the new
    position. *)
Lemma frame_cursor_effect (d : HandDetector.t) (clk : Clock)
    (l : list Landmark) (fingers : Fingers) (g g' : t)
    (cmds : list command) :
  process_frame d clk l fingers g = Some (tt, g', cmds) ->
  w_screen g' = w_screen g /\ h_screen g' = h_screen g
  /\ ((filter is_move cmds = []
       /\ ploc_x g' = ploc_x g /\ ploc_y g' = ploc_y g
       /\ (l = [] \/ scroll_gesture fingers = true \/ index fingers <> 1))
      \/
      (exists tip,
         nth_error l 8 = Some tip
         /\ index fingers = 1 /\ scroll_gesture fingers = false
         /\ ploc_x g'
            = (ploc_x g
               + (x_mapped g (lm_x tip) - ploc_x g) / inject_Z SMOOTHENING)%Q
         /\ ploc_y g'
            = (ploc_y g
               + (y_mapped g (lm_y tip) - ploc_y g) / inject_Z SMOOTHENING)%Q
         /\ cloc_x g' = ploc_x g' /\ cloc_y g' = ploc_y g'
         /\ filter is_move cmds = [Move (ploc_x g') (ploc_y g')]
         /\ hd_error cmds = Some (Move (ploc_x g') (ploc_y g')))).
Proof.
  intros Hframe. destruct l as [|l0 l].
  - cbn [process_frame] in Hframe. rewrite release_drag_run in Hframe.
    destruct (drag_active g); inversion Hframe; subst; cbn; auto 10.
  - unfold scroll_gesture. frame_cases Hframe.
    all: repeat match goal with
         | E : (_ =? _) = true |- _ => apply Z.eqb_eq in E
         | E : (_ =? _) = false |- _ => apply Z.eqb_neq in E
         | p : (ScrollHandler.t * Q)%type |- _ => destruct p
         end.
    all: cbn -[nth_error]; (split; [reflexivity|]); (split; [reflexivity|]).
    all: first
      [ left; repeat split; auto; fail
      | right; eexists; split; [eassumption|];
        repeat split; auto;
        repeat match goal with
        | E : _ = 1 |- _ => rewrite E
        end; cbn; rewrite ?andb_false_r; reflexivity ].
Qed.






(** The fingers the main loop passes for the landmarks of a frame. *)
Lemma step_as_frame (g g' : t) (f : Main.Frame) (cmds : list command) :
  Main.step g f = Some (g', cmds) ->
  exists fingers,
    process_frame {| lm_list := Some (Main.landmarks f) |} (Main.clock f)
      (Main.landmarks f) fingers g = Some (tt, g', cmds)
    /\ (Main.landmarks f = []
        \/ fingers = fingers_up {| lm_list := Some (Main.landmarks f) |}).
Proof.
  unfold Main.step, find_position. intros H.
  match type of H with
  | match ?p with _ => _ end = _ =>
    destruct p as [[[[] g1] c1]|] eqn:E; [|discriminate]
  end.
  inversion H; subst. eexists. split; [exact E|].
  destruct (Main.landmarks f); auto.
Qed.



(** The mapped fingertip lies on a screen of non-negative size. *)
Lemma np_interp_between (x x0 x1 f1 : Q) :
  (x0 < x1)%Q -> (0 <= f1)%Q ->
  (0 <= np_interp x (x0, x1) (0, f1) <= f1)%Q.
Proof.
  intros Hlt Hf. rewrite np_interp_cases by exact Hlt.
  destruct (Qltb x x0) eqn:E0; [split; lra|].
  destruct (Qltb x1 x) eqn:E1; [split; lra|].
  q_orders.
  assert (Ht : (0 <= (x - x0) / (x1 - x0) <= 1)%Q).
  { split.
    - apply Qle_shift_div_l; lra.
    - apply Qle_shift_div_r; lra. }
  set (r := ((x - x0) / (x1 - x0))%Q) in *.
  split; nra.
Qed.

Lemma mapped_on_screen (g : t) (x1 y1 : Z) :
  (0 <= w_screen g)%Q -> (0 <= h_screen g)%Q ->
  (0 <= x_mapped g x1 <= w_screen g)%Q
  /\ (0 <= y_mapped g y1 <= h_screen g)%Q.
Proof.
  intros Hw Hh. unfold x_mapped, y_mapped.
  split; apply np_interp_between; auto; reflexivity.
Qed.

Lemma moves_on_screen_filter (w h : Q) (cmds : list command) :
  moves_on_screen w h (filter is_move cmds) -> moves_on_screen w h cmds.
Proof.
  unfold moves_on_screen. induction cmds as [|c cmds IH]; cbn; intros H.
  - constructor.
  - destruct c; cbn in H; try (constructor; [exact I | auto]).
    inversion H; subst. constructor; auto.
Qed.

Lemma moves_on_screen_app (w h : Q) (c1 c2 : list command) :
  moves_on_screen w h c1 -> moves_on_screen w h c2 ->
  moves_on_screen w h (c1 ++ c2).
Proof. unfold moves_on_screen. intros. apply Forall_app. auto. Qed.

Lemma frame_on_screen (d : HandDetector.t) (clk : Clock)
    (l : list Landmark) (fingers : Fingers) (g g' : t)
    (cmds : list command) :
  process_frame d clk l fingers g = Some (tt, g', cmds) ->
  (0 <= w_screen g)%Q -> (0 <= h_screen g)%Q ->
  cursor_on_screen g ->
  w_screen g' = w_screen g /\ h_screen g' = h_screen g
  /\ cursor_on_screen g'
  /\ moves_on_screen (w_screen g) (h_screen g) cmds.
Proof.
  intros Hframe Hw Hh [[Hx0 Hx1] [Hy0 Hy1]].
  destruct (frame_cursor_effect _ _ _ _ _ _ _ Hframe)
    as (Ew & Eh & [(Hm & Ex & Ey & _)|(tip & _ & _ & _ & Ex & Ey
                                         & _ & _ & Hm & _)]).
  - split; [exact Ew|]. split; [exact Eh|]. split.
    + unfold cursor_on_screen. rewrite Ew, Eh, Ex, Ey. auto.
    + apply moves_on_screen_filter. rewrite Hm. constructor.
  - destruct (mapped_on_screen g (lm_x tip) (lm_y tip) Hw Hh)
      as [[Mx0 Mx1] [My0 My1]].
    assert (Bx : (0 <= ploc_x g' <= w_screen g)%Q).
    { rewrite Ex. change (inject_Z SMOOTHENING) with 7%Q.
      set (m := x_mapped g (lm_x tip)) in *.
      assert (E : (ploc_x g + (m - ploc_x g) / 7
                   == (6 # 7) * ploc_x g + (1 # 7) * m)%Q) by field.
      rewrite E. split; lra. }
    assert (By : (0 <= ploc_y g' <= h_screen g)%Q).
    { rewrite Ey. change (inject_Z SMOOTHENING) with 7%Q.
      set (m := y_mapped g (lm_y tip)) in *.
      assert (E : (ploc_y g + (m - ploc_y g) / 7
                   == (6 # 7) * ploc_y g + (1 # 7) * m)%Q) by field.
      rewrite E. split; lra. }
    split; [exact Ew|]. split; [exact Eh|]. split.
    + unfold cursor_on_screen. rewrite Ew, Eh. auto.
    + apply moves_on_screen_filter. rewrite Hm.
      constructor; [|constructor].
      split; [exact Bx|]. split; [exact By|].
      cbn. split; lra.
Qed.

(** X13.  On a screen of non-negative size, from start-up on, every
    [move] command of the main loop points into the screen, the mirrored
    point handed to [autopy.mouse.move] does too, and the stored cursor
    position stays on the screen. *)
Theorem X13_cursor_stays_on_screen (m : MouseController.t)
    (fs : list Main.Frame) (g : t) (out : list (list command))
    (Hw : (0 <= MouseController.w_screen m)%Q)
    (Hh : (0 <= MouseController.h_screen m)%Q)
    (Hrun : Main.run (new_gesture_handler m) fs = Some (g, out)) :
  cursor_on_screen g
  /\ moves_on_screen (MouseController.w_screen m)
       (MouseController.h_screen m) (concat out).
Proof.
  assert (Hgen : forall fs g0 g out,
             Main.run g0 fs = Some (g, out) ->
             (0 <= w_screen g0)%Q -> (0 <= h_screen g0)%Q ->
             cursor_on_screen g0 ->
             cursor_on_screen g
             /\ moves_on_screen (w_screen g0) (h_screen g0) (concat out)).
  { clear. induction fs as [|f fs IH]; intros g0 g out Hrun Hw Hh Hc;
      cbn [Main.run] in Hrun.
    - inversion Hrun; subst. split; [exact Hc | constructor].
    - destruct (Main.step g0 f) as [[g1 cmds]|] eqn:E1; [|discriminate].
      destruct (Main.run g1 fs) as [[g2 rest]|] eqn:E2; [|discriminate].
      inversion Hrun; subst.
      destruct (step_as_frame _ _ _ _ E1) as (fingers & Hframe & _).
      destruct (frame_on_screen _ _ _ _ _ _ _ Hframe Hw Hh Hc)
        as (Ew & Eh & Hc1 & Hm1).
      rewrite <- Ew in Hw. rewrite <- Eh in Hh.
      destruct (IH _ _ _ E2 Hw Hh Hc1) as (Hc2 & Hm2).
      rewrite Ew, Eh in Hm2.
      split; [exact Hc2|]. cbn [concat].
      apply moves_on_screen_app; assumption. }
  destruct m as [w h]. cbn in *.
  apply (Hgen fs (init w h) g out Hrun Hw Hh).
  split; cbn; split; lra.
Qed.

Lemma X13_cursor_stays_on_screen_witness :
  exists g out,
    Main.run (new_gesture_handler (MouseController.mk 1920 1080))
      [ Main.FR Sample.open_hand (Sample.at_time 1000);
        Main.FR Sample.open_hand (Sample.at_time (10001 # 10)) ]
    = Some (g, out)
    /\ cursor_on_screen g
    /\ moves_on_screen
         (MouseController.w_screen (MouseController.mk 1920 1080))
         (MouseController.h_screen (MouseController.mk 1920 1080))
         (concat out).
Proof.
  eexists _, _. split; [vm_compute; reflexivity|].
  eapply (X13_cursor_stays_on_screen (MouseController.mk 1920 1080)
            [ Main.FR Sample.open_hand (Sample.at_time 1000);
              Main.FR Sample.open_hand (Sample.at_time (10001 # 10)) ]).
  - vm_compute. discriminate.
  - vm_compute. discriminate.
  - vm_compute. reflexivity.
Defined.

(** ** The mouse button over a session *)

(** X14.  From start-up on, over every run of the main loop, the
    begin-drag and end-drag commands alternate, beginning with a
    begin-drag, and the handler's [drag_active] is the state of the
    button after the run. *)
Theorem X14_drag_commands_alternate (m : MouseController.t)
    (fs : list Main.Frame) (g : t) (out : list (list command))
    (Hrun : Main.run (new_gesture_handler m) fs = Some (g, out)) :
  drag_protocol false (concat out) = Some (drag_active g).
Proof.
  destruct m as [w h]. cbn in Hrun.
  exact (proj1 (run_effect _ _ _ _ Hrun)).
Qed.

Lemma X14_drag_commands_alternate_witness :
  exists g out,
    Main.run (new_gesture_handler (MouseController.mk 1920 1080))
      Sample.broken_pinch = Some (g, out)
    /\ drag_protocol false (concat out) = Some (drag_active g).
Proof.
  eexists _, _. split; [vm_compute; reflexivity|].
  eapply (X14_drag_commands_alternate (MouseController.mk 1920 1080)
            Sample.broken_pinch).
  vm_compute. reflexivity.
Defined.

(** X15.  [cleanup] after any run of the main loop leaves the mouse button
    released: it sends the end-drag command exactly when a drag is still
    confirmed, and nothing otherwise. *)
Theorem X15_cleanup_releases_button (m : MouseController.t)
    (fs : list Main.Frame) (g : t) (out : list (list command))
    (Hrun : Main.run (new_gesture_handler m) fs = Some (g, out)) :
  exists last,
    cleanup g = Some (tt, g, last)
    /\ last = (if drag_active g then [ToggleDrag false] else [])
    /\ drag_protocol false (concat out ++ last) = Some false.
Proof.
  destruct m as [w h]. cbn in Hrun.
  pose proof (proj1 (run_effect _ _ _ _ Hrun)) as Hp. cbn in Hp.
  unfold cleanup, bind, get, emit, ret.
  destruct (drag_active g) eqn:E; eexists; (split; [reflexivity|]);
    (split; [reflexivity|]); rewrite (drag_protocol_app _ _ _ _ Hp);
    reflexivity.
Qed.

Lemma X15_cleanup_releases_button_witness :
  exists g out last,
    Main.run (new_gesture_handler (MouseController.mk 1920 1080))
      Sample.broken_pinch = Some (g, out)
    /\ cleanup g = Some (tt, g, last)
    /\ last = (if drag_active g then [ToggleDrag false] else [])
    /\ drag_protocol false (concat out ++ last) = Some false.
Proof.
  eexists _, _.
  assert (Hrun : Main.run (new_gesture_handler (MouseController.mk 1920 1080))
                   Sample.broken_pinch = Some (?[g], ?[out]))
    by (vm_compute; reflexivity).
  destruct (X15_cleanup_releases_button _ _ _ _ Hrun) as (last & H).
  exists last. split; [exact Hrun | exact H].
Defined.

(** ** The scroll history *)

Lemma last_samples_all (n : nat) (xs : list Q) :
  (length xs <= n)%nat -> last_samples n xs = xs.
Proof.
  intros H. unfold last_samples.
  replace (length xs - n)%nat with 0%nat by lia. reflexivity.
Qed.

Lemma last_samples_app_drop (n : nat) (p q : list Q) :
  (n <= length q)%nat -> last_samples n (p ++ q) = last_samples n q.
Proof.
  intros H. unfold last_samples. rewrite length_app, skipn_app.
  replace (length p + length q - n - length p)%nat
    with (length q - n)%nat by lia.
  rewrite skipn_all2 by lia. reflexivity.
Qed.

Lemma last_samples_length (n : nat) (xs : list Q) :
  length (last_samples n xs) = Nat.min n (length xs).
Proof. unfold last_samples. rewrite length_skipn. lia. Qed.

Lemma last_samples_idem_app (n : nat) (a b : list Q) :
  last_samples n (last_samples n a ++ b) = last_samples n (a ++ b).
Proof.
  destruct (Nat.le_gt_cases (length a) n) as [Hle|Hgt].
  - rewrite (last_samples_all n a Hle). reflexivity.
  - unfold last_samples at 2.
    rewrite <- (firstn_skipn (length a - n) a) at 3.
    rewrite <- app_assoc.
    rewrite (last_samples_app_drop n (firstn (length a - n) a)).
    + reflexivity.
    + rewrite length_app, length_skipn. lia.
Qed.

(** One call of [smooth_scroll] on a bounded handler: the history becomes
    the last three samples, and the value returned is their mean. *)
Lemma smooth_scroll_window (s : ScrollHandler.t) (x : Q) :
  history_bounded s ->
  exists s',
    ScrollHandler.smooth_scroll s x
    = Some (s', ScrollHandler.mean (ScrollHandler.scroll_history s'))
    /\ ScrollHandler.scroll_history s'
       = last_samples 3 (ScrollHandler.scroll_history s ++ [x])
    /\ history_bounded s'
    /\ ScrollHandler.scroll_mode s' = ScrollHandler.scroll_mode s
    /\ ScrollHandler.last_scroll_time s' = ScrollHandler.last_scroll_time s.
Proof.
  intros [Hw Hb]. unfold ScrollHandler.smooth_scroll.
  rewrite Hw. change SCROLL_HISTORY_LENGTH with 3%nat in *.
  remember (ScrollHandler.scroll_history s) as h eqn:Eh.
  assert (Hlen : length (h ++ [x]) = S (length h))
    by (rewrite length_app; cbn; lia).
  assert (Hnew :
            (if (3 <? length (h ++ [x]))%nat then tl (h ++ [x])
             else h ++ [x]) = last_samples 3 (h ++ [x])).
  { destruct (3 <? length (h ++ [x]))%nat eqn:E.
    - apply Nat.ltb_lt in E. unfold last_samples.
      replace (length (h ++ [x]) - 3)%nat with 1%nat by lia.
      destruct (h ++ [x]); reflexivity.
    - apply Nat.ltb_ge in E. rewrite last_samples_all by exact E.
      reflexivity. }
  rewrite Hnew.
  assert (Hne : last_samples 3 (h ++ [x]) <> []).
  { intros Hnil. apply (f_equal (@length Q)) in Hnil.
    rewrite last_samples_length, Hlen in Hnil. cbn in Hnil. lia. }
  destruct (last_samples 3 (h ++ [x])) as [|q rest] eqn:El; [congruence|].
  assert (Hq : (length (q :: rest) <= 3)%nat).
  { rewrite <- El, last_samples_length. lia. }
  exists (ScrollHandler.set_scroll_history (q :: rest) s).
  split; [reflexivity|]. split; [reflexivity|].
  split; [split; [exact Hw | exact Hq]|]. split; reflexivity.
Qed.

(** X16.  On a handler whose window is 3, after any number of
    [smooth_scroll] calls the history is the last three samples of the old
    history followed by the new amounts, oldest first; older samples are
    dropped one by one from the front. *)
Theorem X16_history_is_sliding_window (s : ScrollHandler.t) (xs : list Q)
    (Hbounded : history_bounded s) :
  exists s',
    do_calls s (map SmoothScroll xs) = Some s'
    /\ ScrollHandler.scroll_history s'
       = last_samples 3 (ScrollHandler.scroll_history s ++ xs)
    /\ ScrollHandler.scroll_mode s' = ScrollHandler.scroll_mode s
    /\ ScrollHandler.last_scroll_time s' = ScrollHandler.last_scroll_time s.
Proof.
  revert s Hbounded. induction xs as [|x xs IH]; intros s Hb.
  - exists s. cbn. rewrite app_nil_r.
    split; [reflexivity|]. split; [|auto].
    symmetry. apply last_samples_all. apply Hb.
  - destruct (smooth_scroll_window s x Hb) as (s1 & E1 & H1 & Hb1 & M1 & T1).
    destruct (IH s1 Hb1) as (s' & E' & H' & M' & T').
    exists s'. cbn [map do_calls do_call]. rewrite E1. cbn [option_map fst].
    split; [exact E'|]. split; [|split; congruence].
    rewrite H', H1, last_samples_idem_app, <- app_assoc. reflexivity.
Qed.

Lemma X16_history_is_sliding_window_witness :
  exists s',
    do_calls ScrollHandler.init (map SmoothScroll [1; 2; 3; 4; 5]%Q)
    = Some s'
    /\ ScrollHandler.scroll_history s'
       = last_samples 3
           (ScrollHandler.scroll_history ScrollHandler.init
            ++ [1; 2; 3; 4; 5]%Q)
    /\ ScrollHandler.scroll_mode s'
       = ScrollHandler.scroll_mode ScrollHandler.init
    /\ ScrollHandler.last_scroll_time s'
       = ScrollHandler.last_scroll_time ScrollHandler.init.
Proof.
  apply (X16_history_is_sliding_window ScrollHandler.init [1; 2; 3; 4; 5]%Q).
  split; [reflexivity | cbn; lia].
Defined.

(** ** Smoothed scroll amounts *)

Lemma py_sum_bounds (lo hi : Q) (h : list Q) (a : Q) :
  samples_within lo hi h ->
  (a + inject_Z (Z.of_nat (length h)) * lo <= fold_left Qplus h a
   <= a + inject_Z (Z.of_nat (length h)) * hi)%Q.
Proof.
  intros H. revert a. induction H as [|v h [Hlo Hhi] _ IH]; intros a.
  - cbn [fold_left length]. change (inject_Z (Z.of_nat 0)) with 0%Q.
    split; lra.
  - cbn [fold_left length]. destruct (IH (a + v)%Q) as [I1 I2].
    rewrite Nat2Z.inj_succ, <- Z.add_1_r, inject_Z_plus.
    change (inject_Z 1) with 1%Q.
    set (n := inject_Z (Z.of_nat (length h))) in *.
    assert (E1 : ((n + 1) * lo == n * lo + lo)%Q) by ring.
    assert (E2 : ((n + 1) * hi == n * hi + hi)%Q) by ring.
    rewrite E1, E2. split; lra.
Qed.

Lemma mean_bounds (lo hi : Q) (h : list Q) :
  h <> [] -> samples_within lo hi h ->
  (lo <= ScrollHandler.mean h <= hi)%Q.
Proof.
  intros Hne H. unfold ScrollHandler.mean, py_sum.
  destruct (py_sum_bounds lo hi h 0 H) as [S1 S2].
  assert (Hn : (0 < inject_Z (Z.of_nat (length h)))%Q).
  { change 0%Q with (inject_Z 0). rewrite <- Zlt_Qlt.
    destruct h; [congruence | cbn; lia]. }
  set (n := inject_Z (Z.of_nat (length h))) in *.
  split.
  - apply Qle_shift_div_l; [exact Hn | lra].
  - apply Qle_shift_div_r; [exact Hn | lra].
Qed.

Lemma smooth_scroll_within (s s' : ScrollHandler.t)
    (x smoothed lo hi : Q) :
  ScrollHandler.smooth_scroll s x = Some (s', smoothed) ->
  samples_within lo hi (ScrollHandler.scroll_history s ++ [x]) ->
  (lo <= smoothed <= hi)%Q
  /\ samples_within lo hi (ScrollHandler.scroll_history s').
Proof.
  intros Hcall Hsamples.
  unfold ScrollHandler.smooth_scroll in Hcall.
  remember (ScrollHandler.scroll_history s ++ [x]) as h eqn:Eh.
  assert (Hh' : samples_within lo hi
                  (if (ScrollHandler.history_length s <? length h)%nat
                   then tl h else h)).
  { destruct (ScrollHandler.history_length s <? length h)%nat;
      [|exact Hsamples].
    destruct h; [constructor|]. inversion Hsamples; assumption. }
  destruct (if (ScrollHandler.history_length s <? length h)%nat
            then tl h else h) as [|q rest] eqn:E; [discriminate|].
  inversion Hcall; subst s' smoothed. cbn.
  split; [|exact Hh'].
  apply mean_bounds; [discriminate | exact Hh'].
Qed.






(** [int] of a rational between two integers lies between them. *)
Lemma py_int_bounds (a b : Z) (q : Q) :
  (inject_Z a <= q <= inject_Z b)%Q -> a <= py_int q <= b.
Proof.
  destruct q as [n d]. unfold py_int, Qle, inject_Z. cbn.
  rewrite !Z.mul_1_r. intros [H1 H2].
  split.
  - rewrite <- (Z.quot_mul a (Zpos d)) by discriminate.
    apply Z.quot_le_mono; lia.
  - rewrite <- (Z.quot_mul b (Zpos d)) by discriminate.
    apply Z.quot_le_mono; lia.
Qed.

(** The speed for a wrist on a row of the frame is at most the maximum
    sensitivity in magnitude. *)
Lemma speed_in_frame (y : Q) :
  (0 <= y <= 480)%Q ->
  (-(20) <= ScrollHandler.get_progressive_speed y <= 20)%Q.
Proof.
  intros [H0 H1].
  destruct (Qlt_le_dec y 192) as [Ha|Ha].
  - rewrite (speed_above y Ha), Qsquare.
    assert (D : ((192 - y) / 192 == (192 - y) * (1 # 192))%Q) by field.
    rewrite D. split; nra.
  - destruct (Qlt_le_dec 288 y) as [Hb|Hb].
    + rewrite (speed_below y Hb), Qsquare.
      assert (D : ((y - 288) / 192 == (y - 288) * (1 # 192))%Q) by field.
      rewrite D. split; nra.
    + rewrite (speed_inside y Ha Hb). split; lra.
Qed.

(** X22.  For every wrist position on the frame, from row 0 to row 480,
    the magnitude of the speed computed by [get_progressive_speed] is at
    most the maximum sensitivity 20. *)
Theorem X22_speed_within_max_on_frame (y : Q)
    (Hframe : (0 <= y <= inject_Z CAMERA_HEIGHT)%Q) :
  (Qabs (ScrollHandler.get_progressive_speed y)
   <= MAX_SCROLL_SENSITIVITY)%Q.
Proof.
  apply Qabs_Qle_condition. apply speed_in_frame. exact Hframe.
Qed.

Lemma X22_speed_within_max_on_frame_witness :
  (Qabs (ScrollHandler.get_progressive_speed 480)
   <= MAX_SCROLL_SENSITIVITY)%Q.
Proof.
  apply (X22_speed_within_max_on_frame 480). split; discriminate.
Defined.

Lemma quiet_amounts (bound : Z) (cmds : list command) :
  count_scroll cmds = 0%nat -> scroll_amounts_within bound cmds.
Proof.
  unfold count_scroll, scroll_amounts_within.
  induction cmds as [|c cmds IH]; cbn; intros H; [constructor|].
  destruct c; cbn in H; try discriminate; constructor; auto.
Qed.

(** The amount sent for a smoothed speed of magnitude at most 20. *)
Lemma scroll_amount_bound (q : Q) :
  (-(20) <= q <= 20)%Q ->
  - (300) <= py_int (q * inject_Z SCROLL_BOOST_MULTIPLIER) <= 300.
Proof.
  intros [H1 H2]. apply py_int_bounds.
  change (inject_Z SCROLL_BOOST_MULTIPLIER) with 15%Q.
  change (inject_Z (- (300))) with (-(300))%Q.
  change (inject_Z 300) with 300%Q. split; lra.
Qed.

Lemma handle_scroll_amount (clk : Clock) (wrist_y : Z) (g g' : t)
    (cmds : list command) :
  _handle_scroll clk wrist_y g = Some (tt, g', cmds) ->
  samples_within (-(20)) 20
    (ScrollHandler.scroll_history (scroll_handler g)) ->
  (-(20) <= ScrollHandler.get_progressive_speed (inject_Z wrist_y) <= 20)%Q ->
  samples_within (-(20)) 20
    (ScrollHandler.scroll_history (scroll_handler g'))
  /\ scroll_amounts_within 300 cmds.
Proof.
  intros H Hh Hs. unfold _handle_scroll in H. minv.
  all: repeat match goal with
       | r : (ScrollHandler.t * Q)%type |- _ => destruct r
       end.
  all: cbn -[Qle samples_within] in *.
  - apply smooth_scroll_within with (lo := (-(20))%Q) (hi := 20%Q) in Hl.
    + destruct Hl as [Hq Hw]. split; [exact Hw|].
      constructor; [|constructor]. now apply scroll_amount_bound.
    + cbn. constructor; [exact Hs | constructor].
  - apply smooth_scroll_within with (lo := (-(20))%Q) (hi := 20%Q) in Hl.
    + destruct Hl as [Hq Hw]. split; [exact Hw|].
      constructor; [|constructor]. now apply scroll_amount_bound.
    + apply Forall_app. split; [exact Hh|].
      constructor; [exact Hs | constructor].
  - split; constructor.
  - split; [exact Hh | constructor].
Qed.

(** A branch of a frame that sends no scroll command and keeps the
    history. *)
Ltac all_quiet :=
  cbn in *;
  match goal with Hsh : scroll_handler _ = _ |- _ => rewrite Hsh end;
  split; [assumption|];
  apply quiet_amounts; rewrite count_scroll_app;
  match goal with Hc : count_scroll _ = 0%nat |- _ => rewrite Hc end;
  reflexivity.

Lemma frame_scroll_amount (d : HandDetector.t) (clk : Clock)
    (l : list Landmark) (fingers : Fingers) (g g' : t)
    (cmds : list command) :
  process_frame d clk l fingers g = Some (tt, g', cmds) ->
  samples_within (-(20)) 20
    (ScrollHandler.scroll_history (scroll_handler g)) ->
  (forall wrist, nth_error l 0 = Some wrist ->
                 0 <= lm_y wrist <= CAMERA_HEIGHT) ->
  samples_within (-(20)) 20
    (ScrollHandler.scroll_history (scroll_handler g'))
  /\ scroll_amounts_within 300 cmds.
Proof.
  intros H Hh Hwrist. destruct l as [|l0 l].
  - cbn [process_frame] in H.
    destruct (release_drag_effect _ _ _ H) as (Hs & Hc & _).
    rewrite Hs. split; [exact Hh | now apply quiet_amounts].
  - unfold process_frame in H. minv.
    all: repeat match goal with u : unit |- _ => destruct u end.
    all: repeat match goal with
         | H : release_drag _ = Some _ |- _ =>
           apply release_drag_effect in H;
           destruct H as (?Hsh & ?Hcount & _)
         | H : _handle_movement _ _ _ _ _ _ = Some _ |- _ =>
           apply handle_movement_effect in H;
           destruct H as (?Hsh & ?Hcount & _)
         | H : _handle_left_click _ _ _ = Some _ |- _ =>
           apply left_click_effect in H; destruct H as (? & [?|?]); subst
         | H : _handle_right_click _ _ _ = Some _ |- _ =>
           apply right_click_effect in H; destruct H as (? & [?|?]); subst
         end.
    all: cbn [app].
    + match goal with
      | H : _handle_scroll _ _ _ = Some _ |- _ =>
        apply handle_scroll_amount in H; [destruct H as [Hh1 Ha1]|exact Hh|]
      end.
      * rewrite Hsh. split; [exact Hh1|].
        apply Forall_app. split; [exact Ha1 | now apply quiet_amounts].
      * apply speed_in_frame.
        match goal with
        | E : nth_error _ 0 = Some ?w |- _ =>
          specialize (Hwrist w E)
        end.
        change 0%Q with (inject_Z 0). change 480%Q with (inject_Z 480).
        rewrite <- !Zle_Qle. exact Hwrist.
    + all_quiet.
    + all_quiet.
    + all_quiet.
    + all_quiet.
    + all_quiet.
    + all_quiet.
    + all_quiet.
    + all_quiet.
    + all_quiet.
    + all_quiet.
Qed.

(** X18.  From start-up on, while the wrist stays on the rows of the
    camera frame whenever a hand is seen, every scroll command of the main
    loop scrolls by at most 300 units, the maximum sensitivity times the
    boost multiplier. *)
Theorem X18_scroll_amount_at_most_300 (m : MouseController.t)
    (fs : list Main.Frame) (g : t) (out : list (list command))
    (Hrun : Main.run (new_gesture_handler m) fs = Some (g, out))
    (Hwrist : Forall wrist_in_frame fs) :
  scroll_amounts_within 300 (concat out).
Proof.
  assert (Hgen : forall fs g0 g out,
             Main.run g0 fs = Some (g, out) ->
             Forall wrist_in_frame fs ->
             samples_within (-(20)) 20
               (ScrollHandler.scroll_history (scroll_handler g0)) ->
             scroll_amounts_within 300 (concat out)).
  { clear. induction fs as [|f fs IH]; intros g0 g out Hrun Hw Hh;
      cbn [Main.run] in Hrun.
    - inversion Hrun; subst. constructor.
    - destruct (Main.step g0 f) as [[g1 cmds]|] eqn:E1; [|discriminate].
      destruct (Main.run g1 fs) as [[g2 rest]|] eqn:E2; [|discriminate].
      inversion Hrun; subst. inversion Hw as [|? ? Hf Hfs]; subst.
      destruct (step_as_frame _ _ _ _ E1) as (fingers & Hframe & _).
      destruct (frame_scroll_amount _ _ _ _ _ _ _ Hframe Hh) as [Hh1 Ha1].
      { intros wrist Hnth. unfold wrist_in_frame in Hf.
        destruct (Main.landmarks f) as [|w rest0]; [discriminate|].
        cbn in Hnth. inversion Hnth; subst. exact Hf. }
      cbn [concat]. apply Forall_app. split; [exact Ha1|].
      exact (IH _ _ _ E2 Hfs Hh1). }
  destruct m as [w h]. cbn in Hrun.
  apply (Hgen fs _ g out Hrun Hwrist). constructor.
Qed.

Lemma X18_scroll_amount_at_most_300_witness :
  exists g out,
    Main.run (new_gesture_handler (MouseController.mk 1920 1080))
      Sample.top_edge_scroll = Some (g, out)
    /\ scroll_amounts_within 300 (concat out).
Proof.
  eexists _, _. split; [vm_compute; reflexivity|].
  eapply (X18_scroll_amount_at_most_300 (MouseController.mk 1920 1080)
            Sample.top_edge_scroll).
  - vm_compute. reflexivity.
  - repeat constructor; cbn; discriminate.
Defined.

(** ** Pinch distance *)

(** X19.  The length returned by [find_distance] does not depend on the
    order of the two landmark ids; between a landmark and itself it is 0;
    and the comparison with the pinch threshold made on it decides whether
    the distance, as a real number, is below 40 pixels. *)
Theorem X19_find_distance_symmetric (d : HandDetector.t) (p1 p2 : nat) :
  option_map fst (find_distance d p1 p2)
  = option_map fst (find_distance d p2 p1)
  /\ (exists info, find_distance d p1 p1 = Some (Sqrt 0, info))
  /\ (exists len info,
        find_distance d p1 p2 = Some (len, info)
        /\ (length_ltb len PINCH_DISTANCE_THRESHOLD = true
            <-> (length_val len < IZR PINCH_DISTANCE_THRESHOLD)%R)).
Proof.
  unfold find_distance. destruct (lm_list d) as [l|].
  - split; [|split].
    + rewrite (Nat.max_comm p2 p1).
      destruct (length l <? Nat.max p1 p2 + 1)%nat; [reflexivity|].
      destruct (nth_error l p1) as [a|], (nth_error l p2) as [b|];
        try reflexivity.
      cbn. unfold hypot. f_equal. f_equal. ring.
    + rewrite Nat.max_id.
      destruct (length l <? p1 + 1)%nat eqn:E; [eauto|].
      apply Nat.ltb_ge in E.
      destruct (nth_error_in_range l p1) as [a Ha]; [lia|].
      rewrite Ha. unfold hypot. rewrite !Z.sub_diag. cbn. eauto.
    + destruct (length l <? Nat.max p1 p2 + 1)%nat eqn:E.
      * exists (Sqrt 0), [0; 0; 0; 0; 0; 0]. split; [reflexivity|].
        apply length_ltb_lt. lia.
      * apply Nat.ltb_ge in E.
        destruct (nth_error_in_range l p1) as [a Ha]; [lia|].
        destruct (nth_error_in_range l p2) as [b Hb]; [lia|].
        rewrite Ha, Hb. unfold hypot. eexists _, _.
        split; [reflexivity|]. apply length_ltb_lt.
        apply Z.add_nonneg_nonneg; apply Z.square_nonneg.
  - split; [reflexivity|]. split; [eauto|].
    exists (Sqrt 0), [0; 0; 0; 0; 0; 0]. split; [reflexivity|].
    apply length_ltb_lt. lia.
Qed.

(** ** The frame-rate counter *)

(** X20.  [FPSCounter.update] stores the clock reading it is given.  The
    call that finds no previous reading (0) returns 0; a later call
    returns the reciprocal of the time since the previous call, positive
    exactly when the clock has advanced; and it raises
    ([ZeroDivisionError]) exactly when the clock reading equals the
    previous one. *)
Theorem X20_fps_is_reciprocal_of_gap (c : FPSCounter.t) (now : Q) :
  match FPSCounter.update c now with
  | None =>
    ~ (FPSCounter.prev_time c == 0)%Q
    /\ (now == FPSCounter.prev_time c)%Q
  | Some (c', fps) =>
    FPSCounter.prev_time c' = now
    /\ (((FPSCounter.prev_time c == 0)%Q /\ fps = 0%Q)
        \/ (~ (FPSCounter.prev_time c == 0)%Q
            /\ ~ (now == FPSCounter.prev_time c)%Q
            /\ (fps * (now - FPSCounter.prev_time c) == 1)%Q
            /\ ((0 < fps)%Q <-> (FPSCounter.prev_time c < now)%Q)))
  end.
Proof.
  unfold FPSCounter.update.
  destruct (Qeq_bool (FPSCounter.prev_time c) 0) eqn:E0.
  - apply Qeq_bool_iff in E0. cbn. auto.
  - apply Qeq_bool_neq in E0.
    destruct (Qeq_bool (now - FPSCounter.prev_time c) 0) eqn:E1.
    + apply Qeq_bool_iff in E1. split; [exact E0 | lra].
    + apply Qeq_bool_neq in E1. cbn [FPSCounter.prev_time].
      split; [reflexivity|]. right.
      set (gap := (now - FPSCounter.prev_time c)%Q) in *.
      assert (Hr : (1 / gap * gap == 1)%Q) by (field; exact E1).
      split; [exact E0|]. split; [intro H; apply E1; unfold gap; lra|].
      split; [exact Hr|].
      split; intro H.
      * assert (0 < gap)%Q; [|unfold gap in *; lra].
        destruct (Qlt_le_dec 0 gap) as [Hg|Hg]; [exact Hg|exfalso].
        assert (gap < 0)%Q by (destruct (Qeq_dec gap 0); [contradiction|lra]).
        nra.
      * assert (Hg : (0 < gap)%Q) by (unfold gap; lra).
        apply Qlt_shift_div_l; [exact Hg | lra].
Qed.

(** ** Camera selection *)

Lemma try_cameras_find (open : Z -> Camera.probe) (indices : list Z)
    (cap : option Z) :
  Camera.try_cameras open indices cap
  = match find (fun i => Camera.works (open i)) indices with
    | Some i => Some i
    | None => match indices with [] => cap | _ => None end
    end.
Proof.
  revert cap. induction indices as [|i rest IH]; intros cap; cbn.
  - reflexivity.
  - unfold Camera.works at 1.
    destruct (Camera.isOpened (open i)); cbn.
    + destruct (Camera.read_ok (open i)); [reflexivity|].
      rewrite IH. destruct (find _ rest); [reflexivity|].
      destruct rest; reflexivity.
    + rewrite IH. destruct (find _ rest); [reflexivity|].
      destruct rest; reflexivity.
Qed.

(** X21.  [initialize_camera] returns the first device, in the order
    2, 0, 1, 3, 4, that opens and delivers a test frame with the
    DirectShow backend; if there is none, the first of 2, 0, 1 that does so
    with the default backend; and it exits when there is none either.  A
    device that works only at index 3 or 4 of the default backend is never
    used. *)
Theorem X21_camera_by_priority (open : Camera.backend -> Z -> Camera.probe) :
  Camera.initialize_camera open
  = match find (fun i => Camera.works (open Camera.CAP_DSHOW i))
            [2; 0; 1; 3; 4] with
    | Some i => Some (Camera.CAP_DSHOW, i)
    | None =>
      match find (fun i => Camera.works (open Camera.CAP_DEFAULT i))
              [2; 0; 1] with
      | Some i => Some (Camera.CAP_DEFAULT, i)
      | None => None
      end
    end.
Proof.
  unfold Camera.initialize_camera. rewrite !try_cameras_find.
  change Camera.CAMERA_PRIORITIES with [2; 0; 1; 3; 4].
  change (firstn 3 [2; 0; 1; 3; 4]) with [2; 0; 1].
  destruct (find (fun i => Camera.works (open Camera.CAP_DSHOW i))
              [2; 0; 1; 3; 4]) as [i|] eqn:E1.
  - apply find_some in E1. destruct E1 as [_ E1].
    unfold Camera.works in E1. apply andb_true_iff in E1.
    destruct E1 as [E1 _]. rewrite E1. reflexivity.
  - destruct (find (fun i => Camera.works (open Camera.CAP_DEFAULT i))
                [2; 0; 1]) as [j|] eqn:E2; [|reflexivity].
    apply find_some in E2. destruct E2 as [_ E2].
    unfold Camera.works in E2. apply andb_true_iff in E2.
    destruct E2 as [E2 _]. rewrite E2. reflexivity.
Qed.
